(** * Request handling of the retrieval-agent API: standalone server and
      serverless handler

    A shallow embedding of [src/local/main.py] (the Flask server) and
    [src/src/lambda_function.py] (the Lambda handler), and the properties of
    their authentication gate, query dispatch and agent bootstrap.

    Conventions.
    - Python values that travel through the handlers (the Lambda event, the
      parsed request body, the answer envelope) are JSON-shaped and modelled
      by [pyval].  Floating-point numbers are outside the model.
    - A Python [str] is a [string]; a character is a code point below 256.
    - Everything the repository does not own (the parameter store, the vector
      database and model clients, the agent's [query], [json.loads] and
      [json.dumps]) is an oracle: its outcome is an input of the model, and
      every call to a service is recorded in a call log.
    - Exceptions are the instances of Python's [Exception].
    - Logging and the two assignments to [Settings] have no outcome the
      handlers depend on and are left out. *)

From Stdlib Require Import String Ascii List ZArith Bool Lia.
From ExtLib Require Import Structures.Monad Structures.MonadExc Structures.MonadState.
Import ListNotations.
Import MonadNotation.
Local Open Scope string_scope.
Local Open Scope Z_scope.
Local Open Scope monad_scope.

Set Warnings "-register-all".

(* ===================================================================== *)
(** ** Python values and exceptions *)
(* ===================================================================== *)

Inductive pyval : Type :=
| PNone
| PBool (b : bool)
| PInt (z : Z)
| PStr (s : string)
| PList (l : list pyval)
| PDict (d : list (string * pyval)).

(** Truth value of an object, as tested by [if], [not] and [or]. *)
Definition truthy (v : pyval) : bool :=
  match v with
  | PNone => false
  | PBool b => b
  | PInt z => negb (z =? 0)
  | PStr s => negb (s =? "")%string
  | PList l => match l with [] => false | _ => true end
  | PDict d => match d with [] => false | _ => true end
  end.

(** [a or b] *)
Definition py_or (a b : pyval) : pyval := if truthy a then a else b.

(** [v == s] for a string literal [s]: only a [str] equals a [str]. *)
Definition eq_str (v : pyval) (s : string) : bool :=
  match v with
  | PStr t => (t =? s)%string
  | _ => false
  end.

(** [d.get(k)] on a dict held as an association list. *)
Fixpoint dict_get (d : list (string * pyval)) (k : string) : option pyval :=
  match d with
  | [] => None
  | (k', v) :: d' => if (k' =? k)%string then Some v else dict_get d' k
  end.

(** [d.get(k, default)] *)
Definition dict_get_default (d : list (string * pyval)) (k : string) (dflt : pyval) : pyval :=
  match dict_get d k with
  | Some v => v
  | None => dflt
  end.

Inductive exn_class : Type :=
| NameError
| IndexError
| TypeError
| AttributeError
| KeyError
| JSONDecodeError
| RecursionError
| ValueError
| HTTPException      (* raised by Flask's request parsing *)
| ServiceError.      (* raised by an external client or by the agent *)

Record exn : Type := Exn { exn_kind : exn_class; exn_str : string }.

Inductive res (A : Type) : Type :=
| Ok (a : A)
| Raise (e : exn).
Arguments Ok {A} a.
Arguments Raise {A} e.

Definition name_error (name : string) : exn :=
  Exn NameError ("name '" ++ name ++ "' is not defined").

(* ===================================================================== *)
(** ** String operations used by the token extraction *)
(* ===================================================================== *)

(** [str.isspace] on the code points below 256. *)
Definition is_space (c : ascii) : bool :=
  let n := N_of_ascii c in
  (((9 <=? n) && (n <=? 13)) || ((28 <=? n) && (n <=? 32))
   || (n =? 133) || (n =? 160))%N.

(** [s.split()]: the maximal runs of non-whitespace characters. *)
Fixpoint split_ws (s : string) : list string :=
  match s with
  | EmptyString => []
  | String c r =>
      if is_space c then split_ws r
      else match r with
           | EmptyString => [String c EmptyString]
           | String c' _ =>
               if is_space c' then String c EmptyString :: split_ws r
               else match split_ws r with
                    | w :: ws => String c w :: ws
                    | [] => [String c EmptyString]
                    end
           end
  end.

(** [s.split(sep)] for a one-character separator: never empty. *)
Fixpoint split_on (sep : ascii) (s : string) : list string :=
  match s with
  | EmptyString => [EmptyString]
  | String c r =>
      if Ascii.eqb c sep then EmptyString :: split_on sep r
      else match split_on sep r with
           | w :: ws => String c w :: ws
           | [] => [String c EmptyString]
           end
  end.

(** [s.startswith(p)] *)
Definition startswith (s p : string) : bool := prefix p s.

(** [p in s] for strings: [p] occurs in [s]. *)
Fixpoint str_contains (p s : string) : bool :=
  prefix p s ||
  match s with
  | EmptyString => false
  | String _ r => str_contains p r
  end.

Definition no_space (s : string) : Prop :=
  forallb (fun c => negb (is_space c)) (list_ascii_of_string s) = true.

Definition no_char (sep : ascii) (s : string) : Prop :=
  forallb (fun c => negb (Ascii.eqb c sep)) (list_ascii_of_string s) = true.

Definition all_space (s : string) : bool :=
  forallb is_space (list_ascii_of_string s).

(* ===================================================================== *)
(** ** The world outside the repository *)
(* ===================================================================== *)

(** The constructor calls of the agent bootstrap, in the order of the code. *)
Inductive Step : Type :=
| HttpClient (host : option string) (port : Z)
| get_collection (name : string)
| ChromaVectorStore
| OpenAIEmbedding (model key : string)
| OpenAI (model key : string)
| from_vector_store
| as_query_engine
| QueryEngineTool_from_defaults
| ReActAgent_from_tools (verbose : bool).

(** What [ReActAgent.from_tools] returns: the handle kept in [agent]. *)
Record AgentHandle : Type := {
  tool_name : string;
  tool_description : string;
  agent_verbose : bool
}.

(** What [agent.query] returns: an object that may expose a [response]
    attribute, and that has a string form [str(response)]. *)
Record AgentResponse : Type := {
  response_attr : option pyval;
  str_form : string
}.

(** Calls that leave the handler, recorded in order. *)
Inductive Call : Type :=
| SsmGetParameter (name : option string)
| Construct (s : Step)
| AgentQuery (q : pyval)
| JsonLoads (arg : pyval)
| GetJson.

(** Outcome of every call to a service during one request. *)
Record World : Type := {
  ssm_get_parameter : option string -> res string;
  construct : Step -> option exn;
  agent_query : AgentHandle -> pyval -> res AgentResponse
}.

(** [json.loads] on a [str] and [json.dumps].  [loads] gives the value
    parsed, or [None] when [json.loads] raises; [loads_raises] then gives
    the exception when it is not the [JSONDecodeError] of a text that is
    not JSON: the [RecursionError] of a text nested too deep, the
    [ValueError] of an integer with too many digits. *)
Record JsonLib : Type := {
  loads : string -> option pyval;
  loads_raises : string -> option exn;
  dumps : pyval -> string
}.

(* ===================================================================== *)
(** ** State, exceptions and call log *)
(* ===================================================================== *)

Definition M (S A : Type) : Type := S -> res A * S * list Call.

Definition m_ret {S A} (a : A) : M S A := fun s => (Ok a, s, []).

Definition m_bind {S A B} (m : M S A) (f : A -> M S B) : M S B :=
  fun s =>
    match m s with
    | (Ok a, s1, l1) => let '(r, s2, l2) := f a s1 in (r, s2, (l1 ++ l2)%list)
    | (Raise e, s1, l1) => (Raise e, s1, l1)
    end.

Definition m_raise {S A} (e : exn) : M S A := fun s => (Raise e, s, []).

(** [try: m  except Exception as e: h e] *)
Definition m_catch {S A} (m : M S A) (h : exn -> M S A) : M S A :=
  fun s =>
    match m s with
    | (Ok a, s1, l1) => (Ok a, s1, l1)
    | (Raise e, s1, l1) => let '(r, s2, l2) := h e s1 in (r, s2, (l1 ++ l2)%list)
    end.

#[global] Instance Monad_M {S} : Monad (M S) :=
  {| ret := @m_ret S; bind := @m_bind S |}.

#[global] Instance MonadExc_M {S} : MonadExc exn (M S) :=
  {| raise := @m_raise S; catch := @m_catch S |}.

#[global] Instance MonadState_M {S} : MonadState S (M S) :=
  {| get := fun s => (Ok s, s, []); put := fun s' _ => (Ok tt, s', []) |}.

(** One recorded call with a given outcome. *)
Definition call {S A} (c : Call) (r : res A) : M S A := fun s => (r, s, [c]).

(** Reading a module-level name that may be unbound. *)
Definition global {S A} (name : string) (v : option A) : M S A :=
  match v with
  | Some a => ret a
  | None => raise (name_error name)
  end.

Definition type_name (v : pyval) : string :=
  match v with
  | PNone => "NoneType"
  | PBool _ => "bool"
  | PInt _ => "int"
  | PStr _ => "str"
  | PList _ => "list"
  | PDict _ => "dict"
  end.

Definition attribute_error (v : pyval) (attr : string) : exn :=
  Exn AttributeError
      ("'" ++ type_name v ++ "' object has no attribute '" ++ attr ++ "'").

(** [v.get(k)]: only a dict has the method. *)
Definition method_get {S} (v : pyval) (k : string) : M S pyval :=
  match v with
  | PDict d => ret (dict_get_default d k PNone)
  | _ => raise (attribute_error v "get")
  end.

(** [v.split()]: only a str has the method. *)
Definition method_split {S} (v : pyval) : M S (list string) :=
  match v with
  | PStr s => ret (split_ws s)
  | _ => raise (attribute_error v "split")
  end.

(** [l[i]] for [0 <= i]. *)
Definition index {S} (l : list string) (i : nat) : M S string :=
  match nth_error l i with
  | Some x => ret x
  | None => raise (Exn IndexError "list index out of range")
  end.

(* ===================================================================== *)
(** ** src/src/lambda_function.py *)
(* ===================================================================== *)

Module Serverless.

(** The names bound at import from the environment. *)
Record Config : Type := {
  CHROMA_HOST : option string;
  CHROMA_PORT : Z;
  CHROMA_COLLECTION : string;
  SSM_PARAM_API_KEY : option string;
  SSM_PARAM_AUTH_TOKEN : option string;
  EMBEDDING_MODEL : string;
  LLM_MODEL : string
}.

(** The names the module reads but does not bind.  [None] is an unbound
    name: reading it raises [NameError]. *)
Record FreeNames : Type := {
  CHROMA_COLLECTION_NAME : option string;
  OPENAI_EMBEDDING_MODEL_NAME : option string;
  OPENAI_API_KEY : option string;
  OPENAI_MODEL_NAME : option string;
  VERBOSE : option bool;
  FUNCTION_API_TOKEN : option string
}.

(** The module as its text leaves it: none of them is bound. *)
Definition as_written : FreeNames :=
  {| CHROMA_COLLECTION_NAME := None;
     OPENAI_EMBEDDING_MODEL_NAME := None;
     OPENAI_API_KEY := None;
     OPENAI_MODEL_NAME := None;
     VERBOSE := None;
     FUNCTION_API_TOKEN := None |}.

(** The globals [initialize_agent] assigns, and the one environment entry. *)
Record ModuleState : Type := {
  api_key : option string;
  auth_token : option string;
  agent : option AgentHandle;
  environ_OPENAI_API_KEY : option string
}.

(** The module right after import. *)
Definition cold : ModuleState :=
  {| api_key := None; auth_token := None; agent := None;
     environ_OPENAI_API_KEY := None |}.

Definition set_api_key (k : string) (st : ModuleState) : ModuleState :=
  {| api_key := Some k; auth_token := auth_token st; agent := agent st;
     environ_OPENAI_API_KEY := environ_OPENAI_API_KEY st |}.

Definition set_auth_token (t : string) (st : ModuleState) : ModuleState :=
  {| api_key := api_key st; auth_token := Some t; agent := agent st;
     environ_OPENAI_API_KEY := environ_OPENAI_API_KEY st |}.

Definition set_environ (k : option string) (st : ModuleState) : ModuleState :=
  {| api_key := api_key st; auth_token := auth_token st; agent := agent st;
     environ_OPENAI_API_KEY := k |}.

Definition set_agent (a : AgentHandle) (st : ModuleState) : ModuleState :=
  {| api_key := api_key st; auth_token := auth_token st; agent := Some a;
     environ_OPENAI_API_KEY := environ_OPENAI_API_KEY st |}.

Record Response : Type := {
  statusCode : Z;
  headers : list (string * string);
  body : string
}.

Section Handler.

Variable cfg : Config.
Variable names : FreeNames.
Variable json : JsonLib.
Variable w : World.

Local Abbreviation Run := (M ModuleState).

Definition service (s : Step) : Run unit :=
  call (Construct s)
       match construct w s with
       | None => Ok tt
       | Some e => Raise e
       end.

Definition get_api_key : Run string :=
  catch (call (SsmGetParameter (SSM_PARAM_API_KEY cfg))
              (ssm_get_parameter w (SSM_PARAM_API_KEY cfg)))
        (fun e => raise e).

Definition get_auth_token : Run string :=
  catch (call (SsmGetParameter (SSM_PARAM_AUTH_TOKEN cfg))
              (ssm_get_parameter w (SSM_PARAM_AUTH_TOKEN cfg)))
        (fun e => raise e).

(** The body of the [try] of [initialize_agent]. *)
Definition build_agent : Run unit :=
  service (HttpClient (CHROMA_HOST cfg) (CHROMA_PORT cfg)) ;;
  collection <- global "CHROMA_COLLECTION_NAME" (CHROMA_COLLECTION_NAME names) ;;
  service (get_collection collection) ;;
  service ChromaVectorStore ;;
  embed_name <- global "OPENAI_EMBEDDING_MODEL_NAME" (OPENAI_EMBEDDING_MODEL_NAME names) ;;
  embed_key <- global "OPENAI_API_KEY" (OPENAI_API_KEY names) ;;
  service (OpenAIEmbedding embed_name embed_key) ;;
  llm_name <- global "OPENAI_MODEL_NAME" (OPENAI_MODEL_NAME names) ;;
  llm_key <- global "OPENAI_API_KEY" (OPENAI_API_KEY names) ;;
  service (OpenAI llm_name llm_key) ;;
  service from_vector_store ;;
  service as_query_engine ;;
  service QueryEngineTool_from_defaults ;;
  verbose <- global "VERBOSE" (VERBOSE names) ;;
  service (ReActAgent_from_tools verbose) ;;
  st <- get ;;
  put (set_agent {| tool_name := "people";
                    tool_description := "descriptions for various types of people";
                    agent_verbose := verbose |} st).

Definition initialize_agent : Run unit :=
  st <- get ;;
  match agent st with
  | Some _ => ret tt
  | None =>
      k <- get_api_key ;;
      st1 <- get ;;
      put (set_api_key k st1) ;;
      t <- get_auth_token ;;
      st2 <- get ;;
      put (set_auth_token t st2) ;;
      st3 <- get ;;
      put (set_environ (api_key st3) st3) ;;
      catch build_agent (fun e => raise e)
  end.

Definition run_query (query_text : pyval) : Run (list (string * pyval)) :=
  catch
    (st <- get ;;
     response <- match agent st with
                 | Some a => call (AgentQuery query_text) (agent_query w a query_text)
                 | None => raise (attribute_error PNone "query")
                 end ;;
     let result := match response_attr response with
                   | Some r => r
                   | None => PStr (str_form response)
                   end in
     ret [("result", result); ("status", PStr "success")])
    (fun e => ret [("error", PStr (exn_str e)); ("status", PStr "error")]).

Definition json_headers : list (string * string) :=
  [("Content-Type", "application/json")].

Definition cors_headers : list (string * string) :=
  [("Content-Type", "application/json");
   ("Access-Control-Allow-Origin", "*");
   ("Access-Control-Allow-Methods", "POST, OPTIONS");
   ("Access-Control-Allow-Headers", "Content-Type, Authorization")].

Definition error_body (message : string) : string :=
  dumps json (PDict [("status", PStr "error"); ("message", PStr message)]).

Definition error_response (code : Z) (message : string) : Response :=
  {| statusCode := code; headers := json_headers; body := error_body message |}.

Definition init_failed : Response :=
  {| statusCode := 500; headers := cors_headers;
     body := error_body "Failed to initialize agent" |}.

Definition preflight : Response :=
  {| statusCode := 200; headers := cors_headers; body := "" |}.

(** [json.loads(v)] *)
Definition json_loads (v : pyval) : Run pyval :=
  call (JsonLoads v)
       match v with
       | PStr s =>
           match loads json s with
           | Some b => Ok b
           | None =>
               match loads_raises json s with
               | Some e => Raise e
               | None => Raise (Exn JSONDecodeError "Expecting value")
               end
           end
       | _ => Raise (Exn TypeError
                         ("the JSON object must be str, bytes or bytearray, not "
                          ++ type_name v))
       end.

(** Lines 238 to 279: parse the body, read the query, run it. *)
Definition dispatch (event : list (string * pyval)) : Run Response :=
  parsed <- catch (b <- json_loads (dict_get_default event "body" (PStr "{}")) ;;
                   ret (inl b))
                  (fun e => match exn_kind e with
                            | JSONDecodeError =>
                                ret (inr (error_response 400 "Invalid JSON in request body"))
                            | _ => raise e
                            end) ;;
  match parsed with
  | inr r => ret r
  | inl body_ =>
      query <- method_get body_ "query" ;;
      if negb (truthy query) then
        ret (error_response 400 "Missing query parameter")
      else
        catch
          (result <- run_query query ;;
           let status_code :=
             if eq_str (dict_get_default result "status" PNone) "success"
             then 200 else 500 in
           ret {| statusCode := status_code;
                  headers := [("Content-Type", "application/json");
                              ("Access-Control-Allow-Origin", "*")];
                  body := dumps json (PDict result) |})
          (fun _ => ret (error_response 500 "Internal server error"))
  end.

(** Lines 214 to 236: [Some r] is the early return of the gate. *)
Definition auth_gate (event : list (string * pyval)) : Run (option Response) :=
  let headers_ := dict_get_default event "headers" (PDict []) in
  a1 <- method_get headers_ "Authorization" ;;
  auth_header <- (if truthy a1 then ret a1 else method_get headers_ "authorization") ;;
  if negb (truthy auth_header) then
    ret (Some (error_response 401 "Missing authentication token"))
  else
    token_parts <- method_split auth_header ;;
    received_token <- (if (1 <? length token_parts)%nat
                       then index token_parts (length token_parts - 1)
                       else index token_parts 0) ;;
    expected <- global "FUNCTION_API_TOKEN" (FUNCTION_API_TOKEN names) ;;
    if negb (received_token =? expected)%string then
      ret (Some (error_response 403 "Invalid authentication token"))
    else
      ret None.

Definition lambda_handler (event : list (string * pyval)) : Run Response :=
  failed <- catch (initialize_agent ;; ret None)
                  (fun _ => ret (Some init_failed)) ;;
  match failed with
  | Some r => ret r
  | None =>
      if eq_str (dict_get_default event "httpMethod" PNone) "OPTIONS" then
        ret preflight
      else if negb (eq_str (dict_get_default event "httpMethod" PNone) "POST") then
        ret (error_response 405 "Method not allowed")
      else
        rejected <- auth_gate event ;;
        match rejected with
        | Some r => ret r
        | None => dispatch event
        end
  end.

End Handler.

End Serverless.

(* ===================================================================== *)
(** ** src/local/main.py *)
(* ===================================================================== *)

Module Standalone.

(** What the view reads of Flask's [request]: the [Authorization] header
    and the outcome of [request.get_json()]. *)
Record Request : Type := {
  authorization : option string;
  get_json : res pyval
}.

(** [(jsonify(payload), status)] *)
Record Reply : Type := {
  payload : pyval;
  status : Z
}.

Section App.

(** [API_TOKEN]; the import fails when it is empty. *)
Variable API_TOKEN : string.
(** The agent built at import. *)
Variable agent : AgentHandle.
Variable w : World.

Local Abbreviation Run := (M unit).

Definition jsonify (d : list (string * pyval)) (code : Z) : Reply :=
  {| payload := PDict d; status := code |}.

(** [k in v] *)
Definition contains {S} (k : string) (v : pyval) : M S bool :=
  match v with
  | PDict d => ret (match dict_get d k with Some _ => true | None => false end)
  | PList l => ret (existsb (fun x => eq_str x k) l)
  | PStr s => ret (str_contains k s)
  | _ => raise (Exn TypeError
                    ("argument of type '" ++ type_name v ++ "' is not iterable"))
  end.

(** [v[k]] for a string [k] *)
Definition subscript {S} (v : pyval) (k : string) : M S pyval :=
  match v with
  | PDict d =>
      match dict_get d k with
      | Some x => ret x
      | None => raise (Exn KeyError ("'" ++ k ++ "'"))
      end
  | PList _ => raise (Exn TypeError "list indices must be integers or slices, not str")
  | PStr _ => raise (Exn TypeError "string indices must be integers, not 'str'")
  | _ => raise (Exn TypeError ("'" ++ type_name v ++ "' object is not subscriptable"))
  end.

(** The decorator: [decorated] for a view [f]. *)
Definition token_required (f : Request -> Run Reply) (request : Request) : Run Reply :=
  let auth_header := authorization request in
  token <- match auth_header with
           | Some h =>
               if truthy (PStr h) then
                 if startswith h "Bearer " then
                   t <- index (split_on " " h) 1 ;; ret (Some t)
                 else ret None
               else ret None
           | None => ret None
           end ;;
  match token with
  | None => ret (jsonify [("error", PStr "Unauthorized: Missing token")] 401)
  | Some t =>
      if negb (truthy (PStr t)) then
        ret (jsonify [("error", PStr "Unauthorized: Missing token")] 401)
      else if negb (t =? API_TOKEN)%string then
        ret (jsonify [("error", PStr "Unauthorized: Invalid token")] 401)
      else f request
  end.

Definition run_query (query_text : pyval) : Run AgentResponse :=
  call (AgentQuery query_text) (agent_query w agent query_text).

(** The undecorated view. *)
Definition query_view (request : Request) : Run Reply :=
  data <- call GetJson (get_json request) ;;
  missing <- (if negb (truthy data) then ret true
              else present <- contains "query" data ;; ret (negb present)) ;;
  if (missing : bool) then
    ret (jsonify [("error", PStr "Missing query parameter")] 400)
  else
    query_text <- subscript data "query" ;;
    catch (result <- run_query query_text ;;
           ret (jsonify [("result", PStr (str_form result))] 200))
          (fun e => ret (jsonify [("error", PStr (exn_str e))] 500)).

(** [POST /query] *)
Definition query_endpoint : Request -> Run Reply := token_required query_view.

(** [GET /health] *)
Definition health_check : Run Reply :=
  ret (jsonify [("status", PStr "healthy")] 200).

End App.

End Standalone.

(* ===================================================================== *)
(** ** src/local/main.py, the code run at import (lines 13 to 82) *)
(* ===================================================================== *)

Module Startup.

(** [c.lower()] on the code points below 256: the letters A to Z and the
    accented capitals U+00C0 to U+00DE, the sign U+00D7 apart. *)
Definition lower_char (c : ascii) : ascii :=
  let n := N_of_ascii c in
  if (((65 <=? n) && (n <=? 90))
      || ((192 <=? n) && (n <=? 222) && negb (n =? 215)))%N
  then ascii_of_N (n + 32)
  else c.

Fixpoint lower (s : string) : string :=
  match s with
  | EmptyString => EmptyString
  | String c r => String (lower_char c) (lower r)
  end.

(** The constructor calls of the import, with the arguments read from the
    environment ([None]: the variable is not set and has no default). *)
Inductive Step : Type :=
| HttpClient (host : string) (port : Z)
| get_collection (name : option string)
| ChromaVectorStore
| OpenAIEmbedding (model : string) (key : option string)
| OpenAI (model : string) (key : option string)
| from_vector_store
| as_query_engine
| QueryEngineTool_from_defaults
| ReActAgent_from_tools (verbose : bool).

Inductive import_error : Type :=
| ValueError (message : string)
| Propagated (e : exn).

(** What the import leaves: the module with [API_TOKEN] and [agent], or
    the exception that ended it. *)
Inductive import_result : Type :=
| Imported (API_TOKEN : string) (agent : AgentHandle)
| ImportFailed (e : import_error).

Section AtImport.

(** [os.getenv], after [load_dotenv()]. *)
Variable getenv : string -> option string.
(** [int] on a string; [inr message]: [ValueError(message)]. *)
Variable int_of : string -> Z + string.
(** Outcome of each constructor call; [None]: it returns. *)
Variable construct : Step -> option exn.

(** [os.getenv(name, default)] *)
Definition getenv_default (name dflt : string) : string :=
  match getenv name with
  | Some v => v
  | None => dflt
  end.

(** The calls in order, up to the first that raises. *)
Fixpoint run_steps (steps : list Step) : option exn * list Step :=
  match steps with
  | [] => (None, [])
  | s :: rest =>
      match construct s with
      | Some e => (Some e, [s])
      | None => let '(r, l) := run_steps rest in (r, s :: l)
      end
  end.

Definition main : import_result * list Step :=
  let API_TOKEN := getenv "FUNCTION_API_TOKEN" in
  match API_TOKEN with
  | None =>
      (ImportFailed (ValueError "FUNCTION_API_TOKEN environment variable is not set"), [])
  | Some token =>
      if (token =? "")%string then
        (ImportFailed (ValueError "FUNCTION_API_TOKEN environment variable is not set"), [])
      else
        let host := getenv_default "CHROMA_HOST" "localhost" in
        match (match getenv "CHROMA_PORT" with
               | Some p => int_of p
               | None => inl 8000
               end) with
        | inr message => (ImportFailed (ValueError message), [])
        | inl port =>
            let verbose := (lower (getenv_default "VERBOSE" "false") =? "true")%string in
            match run_steps
                    [HttpClient host port;
                     get_collection (getenv "CHROMA_COLLECTION_NAME");
                     ChromaVectorStore;
                     OpenAIEmbedding
                       (getenv_default "OPENAI_EMBEDDING_MODEL_NAME" "text-embedding-3-small")
                       (getenv "OPENAI_API_KEY");
                     OpenAI (getenv_default "OPENAI_MODEL_NAME" "o3-mini")
                            (getenv "OPENAI_API_KEY");
                     from_vector_store;
                     as_query_engine;
                     QueryEngineTool_from_defaults;
                     ReActAgent_from_tools verbose] with
            | (Some e, l) => (ImportFailed (Propagated e), l)
            | (None, l) =>
                (Imported token
                          {| tool_name := "people";
                             tool_description := "descriptions for various types of people";
                             agent_verbose := verbose |},
                 l)
            end
        end
  end.

End AtImport.

End Startup.

(* ===================================================================== *)
(** ** Reading the runs: outcomes, call classes, sample data *)
(* ===================================================================== *)

Import Serverless.

(** The log of a run placed after an earlier log. *)
Definition after {A S : Type} (l1 : list Call) (x : res A * S * list Call)
  : res A * S * list Call :=
  let '(r, s, l) := x in (r, s, (l1 ++ l)%list).

(** The token the serverless gate compares: the last whitespace-separated
    part of the header, when there is one. *)
Definition received_token (h : string) : option string :=
  match split_ws h with
  | [] => None
  | p :: ps => Some (last ps p)
  end.

(** The header value the serverless gate looks at. *)
Definition authorization_of (hs : list (string * pyval)) : pyval :=
  py_or (dict_get_default hs "Authorization" PNone)
        (dict_get_default hs "authorization" PNone).

Definition method_of (event : list (string * pyval)) : pyval :=
  dict_get_default event "httpMethod" PNone.

(** Calls made by the bootstrap, by the body parsing, by the query. *)
Definition bootstrap_call (c : Call) : bool :=
  match c with
  | SsmGetParameter _ | Construct _ => true
  | _ => false
  end.

Definition parse_call (c : Call) : bool :=
  match c with
  | JsonLoads _ | GetJson => true
  | _ => false
  end.

Definition query_call (c : Call) : bool :=
  match c with
  | AgentQuery _ => true
  | _ => false
  end.

Definition no_calls (p : Call -> bool) (l : list Call) : Prop :=
  forallb (fun c => negb (p c)) l = true.

Definition auth_failure (r : Response) : Prop :=
  statusCode r = 401 \/ statusCode r = 403.

(** The text the serverless [run_query] takes from the agent's answer. *)
Definition result_of (r : AgentResponse) : pyval :=
  match response_attr r with
  | Some v => v
  | None => PStr (str_form r)
  end.

(** The text of the agent's answer, as the serverless [run_query] reads
    it: the [response] attribute of a structured answer, or the string
    form of a plain one. *)
Definition answers_text (r : AgentResponse) (T : string) : Prop :=
  response_attr r = Some (PStr T) \/
  (response_attr r = None /\ str_form r = T).

Section Outcomes.

Variable names : FreeNames.
Variable json : JsonLib.
Variable w : World.

(** What the gate decides, as a function of the header value. *)
Definition gate_outcome (a : pyval) : res (option Response) :=
  if negb (truthy a) then
    Ok (Some (error_response json 401 "Missing authentication token"))
  else
    match a with
    | PStr h =>
        match received_token h with
        | None => Raise (Exn IndexError "list index out of range")
        | Some t =>
            match FUNCTION_API_TOKEN names with
            | None => Raise (name_error "FUNCTION_API_TOKEN")
            | Some secret =>
                if (t =? secret)%string then Ok None
                else Ok (Some (error_response json 403 "Invalid authentication token"))
            end
        end
    | _ => Raise (attribute_error a "split")
    end.

(** Lines 193 to 279: what [lambda_handler] does once the bootstrap has
    returned. *)
Definition routed (event : list (string * pyval)) : M ModuleState Response :=
  if eq_str (dict_get_default event "httpMethod" PNone) "OPTIONS" then
    ret (preflight)
  else if negb (eq_str (dict_get_default event "httpMethod" PNone) "POST") then
    ret (error_response json 405 "Method not allowed")
  else
    rejected <- auth_gate names json event ;;
    match rejected with
    | Some r => ret r
    | None => dispatch json w event
    end.

Definition success_response (result : pyval) : Response :=
  {| statusCode := 200;
     headers := [("Content-Type", "application/json");
                 ("Access-Control-Allow-Origin", "*")];
     body := dumps json (PDict [("result", result); ("status", PStr "success")]) |}.

Definition failure_response (message : string) : Response :=
  {| statusCode := 500;
     headers := [("Content-Type", "application/json");
                 ("Access-Control-Allow-Origin", "*")];
     body := dumps json (PDict [("error", PStr message); ("status", PStr "error")]) |}.

End Outcomes.

(** A world in which every service call fails. *)
Definition outage : World :=
  {| ssm_get_parameter := fun _ => Raise (Exn ServiceError "AccessDeniedException");
     construct := fun _ => Some (Exn ServiceError "connection refused");
     agent_query := fun _ _ => Raise (Exn ServiceError "agent unavailable") |}.

(** A world in which every service call succeeds and the agent answers
    with a structured response. *)
Definition healthy (answer : string) : World :=
  {| ssm_get_parameter := fun _ => Ok "sk-test";
     construct := fun _ => None;
     agent_query := fun _ _ =>
       Ok {| response_attr := Some (PStr answer); str_form := answer |} |}.

(** A JSON library stub that knows two request bodies. *)
Definition stub_json (text : string) (parsed : pyval) : JsonLib :=
  {| loads := fun s => if (s =? "{}")%string then Some (PDict [])
                       else if (s =? text)%string then Some parsed
                       else None;
     loads_raises := fun _ => None;
     dumps := fun v => match v with
                       | PDict ((_, PStr s) :: _) => s
                       | _ => ""
                       end |}.

Definition sample_config : Config :=
  {| CHROMA_HOST := Some "chroma.internal"; CHROMA_PORT := 8000;
     CHROMA_COLLECTION := "knowledge";
     SSM_PARAM_API_KEY := Some "/agent/api-key";
     SSM_PARAM_AUTH_TOKEN := Some "/agent/auth-token";
     EMBEDDING_MODEL := "text-embedding-3-small"; LLM_MODEL := "o3-mini" |}.

(** The free names bound by hand, as a test harness would. *)
Definition bound (secret : string) : FreeNames :=
  {| CHROMA_COLLECTION_NAME := Some "knowledge";
     OPENAI_EMBEDDING_MODEL_NAME := Some "text-embedding-3-small";
     OPENAI_API_KEY := Some "sk-test";
     OPENAI_MODEL_NAME := Some "o3-mini";
     VERBOSE := Some false;
     FUNCTION_API_TOKEN := Some secret |}.

Definition sample_agent : AgentHandle :=
  {| tool_name := "people";
     tool_description := "descriptions for various types of people";
     agent_verbose := false |}.

(** A module whose agent is already built. *)
Definition warm : ModuleState :=
  {| api_key := Some "sk-test"; auth_token := Some "secret123";
     agent := Some sample_agent; environ_OPENAI_API_KEY := Some "sk-test" |}.

Definition post (hs : list (string * pyval)) (text : string) : list (string * pyval) :=
  [("httpMethod", PStr "POST"); ("headers", PDict hs); ("body", PStr text)].

(** The token the decorator extracts from the header. *)
Definition bearer_token (a : option string) : option string :=
  match a with
  | Some h =>
      if truthy (PStr h) then
        if startswith h "Bearer " then nth_error (split_on " " h) 1 else None
      else None
  | None => None
  end.

Definition missing_token : Standalone.Reply :=
  Standalone.jsonify [("error", PStr "Unauthorized: Missing token")] 401.

Definition invalid_token : Standalone.Reply :=
  Standalone.jsonify [("error", PStr "Unauthorized: Invalid token")] 401.

Definition bearer (t : string) : option string := Some ("Bearer " ++ t).

Definition options_request : list (string * pyval) :=
  [("httpMethod", PStr "OPTIONS")].

Definition get_request : list (string * pyval) :=
  [("httpMethod", PStr "GET"); ("headers", PNone); ("body", PNone)].

(** The preflight claim as the specification words it: every OPTIONS
    invocation is answered 200. *)
Definition preflight_always : Prop :=
  forall cfg names json w event st,
    eq_str (method_of event) "OPTIONS" = true ->
    exists resp st' l,
      lambda_handler cfg names json w event st = (Ok resp, st', l) /\
      statusCode resp = 200.

Definition blank_header_request : list (string * pyval) :=
  post [("Authorization", PStr " ")] "{}".

(** Does the header carry the standalone secret as its bearer token. *)
Definition presents (secret : string) (a : option string) : bool :=
  match bearer_token a with
  | Some t => (t =? secret)%string
  | None => false
  end.

Definition stub : JsonLib :=
  stub_json "Q" (PDict [("query", PStr "Who is Ada?")]).

(** The module after a successful first bootstrap in the [healthy] world. *)
Definition ready : ModuleState :=
  {| api_key := Some "sk-test"; auth_token := Some "sk-test";
     agent := Some sample_agent; environ_OPENAI_API_KEY := Some "sk-test" |}.

(** The gate-first claim as the specification words it, for the serverless
    handler: a request without credential is answered by an auth failure,
    and neither the bootstrap, nor the parser, nor the agent was called. *)
Definition gate_first : Prop :=
  forall cfg names json w hs text st,
    truthy (authorization_of hs) = false ->
    exists resp st' l,
      lambda_handler cfg names json w (post hs text) st = (Ok resp, st', l) /\
      auth_failure resp /\
      no_calls bootstrap_call l /\ no_calls parse_call l /\ no_calls query_call l.

Definition request_with (a : option string) (data : pyval) : Standalone.Request :=
  {| Standalone.authorization := a; Standalone.get_json := Ok data |}.

Definition ada_body : pyval := PDict [("query", PStr "Who is Ada?")].

(** The failure-mode claim as the specification words it, for the
    standalone server: a token that is present but wrong is answered 403. *)
Definition forbidden_on_mismatch : Prop :=
  forall API_TOKEN agent_ w request t st,
    bearer_token (Standalone.authorization request) = Some t ->
    (t =? "")%string = false ->
    (t =? API_TOKEN)%string = false ->
    exists reply l,
      Standalone.query_endpoint API_TOKEN agent_ w request st = (Ok reply, st, l) /\
      Standalone.status reply = 403.

(** The two-forms claim as the specification words it, for the standalone
    decorator: a header carrying the secret, with or without the scheme,
    lets the view run. *)
Definition both_forms_accepted : Prop :=
  forall API_TOKEN f request st,
    (API_TOKEN =? "")%string = false ->
    no_char " " API_TOKEN ->
    Standalone.authorization request = bearer API_TOKEN \/
    Standalone.authorization request = Some API_TOKEN ->
    Standalone.token_required API_TOKEN f request st = f request st.

(** The missing-query claim as the specification words it.  First half,
    on the standalone server: an authenticated request whose body has no
    [query], or an empty one, is answered 400 and the agent is not
    queried.  Second half, on the serverless handler: a body without
    [query] is answered 400 whatever the token. *)
Definition empty_query_rejected : Prop :=
  forall API_TOKEN agent_ w request d st,
    presents API_TOKEN (Standalone.authorization request) = true ->
    (API_TOKEN =? "")%string = false ->
    Standalone.get_json request = Ok (PDict d) ->
    dict_get d "query" = None \/ dict_get d "query" = Some (PStr "") ->
    exists reply l,
      Standalone.query_endpoint API_TOKEN agent_ w request st = (Ok reply, st, l) /\
      Standalone.status reply = 400 /\ no_calls query_call l.

Definition missing_query_400_any_token : Prop :=
  forall cfg names json w hs raw d st,
    loads json raw = Some (PDict d) ->
    dict_get d "query" = None ->
    exists resp st' l,
      lambda_handler cfg names json w (post hs raw) st = (Ok resp, st', l) /\
      statusCode resp = 400.

Definition empty_body : pyval := PDict [("query", PStr "")].

(** A world whose agent raises on every query. *)
Definition broken_agent (message : string) : World :=
  {| ssm_get_parameter := fun _ => Ok "sk-test";
     construct := fun _ => None;
     agent_query := fun _ _ => Raise (Exn ServiceError message) |}.

(* ===================================================================== *)
(** ** The handlers as functions of their input *)
(* ===================================================================== *)

(** Is the exception one that [except json.JSONDecodeError] catches. *)
Definition is_decode_error (e : exn) : bool :=
  match exn_kind e with
  | JSONDecodeError => true
  | _ => false
  end.

(** The exception a call of the bootstrap raises in a world, if any. *)
Definition raised_by (w : World) (c : Call) : option exn :=
  match c with
  | SsmGetParameter name =>
      match ssm_get_parameter w name with
      | Raise e => Some e
      | Ok _ => None
      end
  | Construct s => construct w s
  | _ => None
  end.

Section HandlerOutcomes.

Variable names : FreeNames.
Variable json : JsonLib.
Variable w : World.

(** The gate on an event: the [headers] entry has to be an object. *)
Definition gate_of_event (event : list (string * pyval)) : res (option Response) :=
  match dict_get_default event "headers" (PDict []) with
  | PDict hs => gate_outcome names json (authorization_of hs)
  | v => Raise (attribute_error v "get")
  end.

(** Result and calls of lines 238 to 279. *)
Definition dispatch_outcome (event : list (string * pyval)) (st : ModuleState)
  : res Response * list Call :=
  let v := dict_get_default event "body" (PStr "{}") in
  match v with
  | PStr raw =>
      match loads json raw with
      | None =>
          match loads_raises json raw with
          | Some e =>
              if is_decode_error e then
                (Ok (error_response json 400 "Invalid JSON in request body"),
                 [JsonLoads v])
              else (Raise e, [JsonLoads v])
          | None =>
              (Ok (error_response json 400 "Invalid JSON in request body"),
               [JsonLoads v])
          end
      | Some (PDict d) =>
          let q := dict_get_default d "query" PNone in
          if truthy q then
            match agent st with
            | Some a =>
                (match agent_query w a q with
                 | Ok r => Ok (success_response json (result_of r))
                 | Raise e => Ok (failure_response json (exn_str e))
                 end, [JsonLoads v; AgentQuery q])
            | None =>
                (Ok (failure_response json (exn_str (attribute_error PNone "query"))),
                 [JsonLoads v])
            end
          else (Ok (error_response json 400 "Missing query parameter"),
                [JsonLoads v])
      | Some b => (Raise (attribute_error b "get"), [JsonLoads v])
      end
  | _ => (Raise (Exn TypeError
                     ("the JSON object must be str, bytes or bytearray, not "
                      ++ type_name v)),
          [JsonLoads v])
  end.

(** Result and calls of lines 193 to 279. *)
Definition routed_outcome (event : list (string * pyval)) (st : ModuleState)
  : res Response * list Call :=
  if eq_str (method_of event) "OPTIONS" then (Ok preflight, [])
  else if negb (eq_str (method_of event) "POST") then
    (Ok (error_response json 405 "Method not allowed"), [])
  else
    match gate_of_event event with
    | Ok None => dispatch_outcome event st
    | Ok (Some r) => (Ok r, [])
    | Raise e => (Raise e, [])
    end.

End HandlerOutcomes.

(** Result and calls of the undecorated standalone view. *)
Definition view_outcome (agent_ : AgentHandle) (w : World)
           (request : Standalone.Request) : res Standalone.Reply * list Call :=
  match Standalone.get_json request with
  | Raise e => (Raise e, [GetJson])
  | Ok data =>
      if negb (truthy data) then
        (Ok (Standalone.jsonify [("error", PStr "Missing query parameter")] 400),
         [GetJson])
      else
        match data with
        | PDict d =>
            match dict_get d "query" with
            | None =>
                (Ok (Standalone.jsonify [("error", PStr "Missing query parameter")] 400),
                 [GetJson])
            | Some q =>
                (match agent_query w agent_ q with
                 | Ok r => Ok (Standalone.jsonify [("result", PStr (str_form r))] 200)
                 | Raise e => Ok (Standalone.jsonify [("error", PStr (exn_str e))] 500)
                 end, [GetJson; AgentQuery q])
            end
        | PList l =>
            if existsb (fun x => eq_str x "query") l then
              (Raise (Exn TypeError "list indices must be integers or slices, not str"),
               [GetJson])
            else
              (Ok (Standalone.jsonify [("error", PStr "Missing query parameter")] 400),
               [GetJson])
        | PStr s =>
            if str_contains "query" s then
              (Raise (Exn TypeError "string indices must be integers, not 'str'"),
               [GetJson])
            else
              (Ok (Standalone.jsonify [("error", PStr "Missing query parameter")] 400),
               [GetJson])
        | _ =>
            (Raise (Exn TypeError
                        ("argument of type '" ++ type_name data ++ "' is not iterable")),
             [GetJson])
        end
  end.

Definition is_str (v : pyval) : bool :=
  match v with PStr _ => true | _ => false end.

Definition is_dict (v : pyval) : bool :=
  match v with PDict _ => true | _ => false end.

(** The status codes each variant can answer with. *)
Definition serverless_status (z : Z) : bool :=
  (z =? 200) || (z =? 400) || (z =? 401) || (z =? 403) || (z =? 405) || (z =? 500).

Definition standalone_status (z : Z) : bool :=
  (z =? 200) || (z =? 400) || (z =? 401) || (z =? 500).

(** [k in d] on a list of response headers. *)
Definition has_header (k : string) (hs : list (string * string)) : bool :=
  existsb (fun kv => (fst kv =? k)%string) hs.

(** A string has a whitespace character. *)
Definition has_space (s : string) : bool :=
  existsb is_space (list_ascii_of_string s).

(** A string has the character [c]. *)
Definition has_char (c : ascii) (s : string) : bool :=
  existsb (fun x => Ascii.eqb x c) (list_ascii_of_string s).

Definition null_body_request : list (string * pyval) :=
  [("httpMethod", PStr "POST");
   ("headers", PDict [("Authorization", PStr "Bearer secret123")]);
   ("body", PNone)].

Definition no_body_request : list (string * pyval) :=
  [("httpMethod", PStr "POST");
   ("headers", PDict [("Authorization", PStr "Bearer secret123")])].

Definition array_json : JsonLib :=
  stub_json "[1, 2]" (PList [PInt 1; PInt 2]).

Definition null_headers_request : list (string * pyval) :=
  [("httpMethod", PStr "POST"); ("headers", PNone); ("body", PStr "Q")].

(** A parameter store that has the API key and not the auth token. *)
Definition half_store : World :=
  {| ssm_get_parameter := fun name =>
       match name with
       | Some "/agent/api-key" => Ok "sk-test"
       | _ => Raise (Exn ServiceError "ParameterNotFound")
       end;
     construct := fun _ => None;
     agent_query := fun _ _ => Raise (Exn ServiceError "agent unavailable") |}.

(** The module [warm] with another token in [auth_token]. *)
Definition warm_other_token : ModuleState :=
  {| api_key := Some "sk-test"; auth_token := Some "another-token";
     agent := Some sample_agent; environ_OPENAI_API_KEY := None |}.

(** [sample_config] with other values in the three unused entries. *)
Definition other_models : Config :=
  {| CHROMA_HOST := Some "chroma.internal"; CHROMA_PORT := 8000;
     CHROMA_COLLECTION := "archive";
     SSM_PARAM_API_KEY := Some "/agent/api-key";
     SSM_PARAM_AUTH_TOKEN := Some "/agent/auth-token";
     EMBEDDING_MODEL := "text-embedding-3-large"; LLM_MODEL := "gpt-4o" |}.

(** An environment given as an association list. *)
Definition env_of (vars : list (string * string)) (name : string) : option string :=
  match find (fun kv => (fst kv =? name)%string) vars with
  | Some kv => Some (snd kv)
  | None => None
  end.

(** An [int] that reads 8000 and rejects everything else. *)
Definition int_stub (s : string) : Z + string :=
  if (s =? "8000")%string then inl 8000
  else inr ("invalid literal for int() with base 10: '" ++ s ++ "'").

(** A JSON library stub on which one text, standing for a text nested
    deeper than the interpreter allows, raises [RecursionError]. *)
Definition deep_json : JsonLib :=
  {| loads := fun _ => None;
     loads_raises := fun s =>
       if (s =? "[[[[")%string then
         Some (Exn RecursionError
                   "maximum recursion depth exceeded while decoding a JSON array from a unicode string")
       else None;
     dumps := fun _ => "" |}.

(** A world whose vector database has no such collection. *)
Definition no_collection : World :=
  {| ssm_get_parameter := fun _ => Ok "sk-test";
     construct := fun s =>
       match s with
       | get_collection _ =>
           Some (Exn ServiceError "Collection knowledge does not exist.")
       | _ => None
       end;
     agent_query := fun _ _ => Raise (Exn ServiceError "agent unavailable") |}.

(** The success claim as the specification words it, for the standalone
    server: a request that carries the secret, with or without the scheme,
    and a non-empty [query] is answered 200 with the text the agent
    returns. *)
Definition correct_token_answered : Prop :=
  forall API_TOKEN agent_ w request d q r T st,
    (API_TOKEN =? "")%string = false ->
    no_char " " API_TOKEN ->
    Standalone.authorization request = bearer API_TOKEN \/
    Standalone.authorization request = Some API_TOKEN ->
    Standalone.get_json request = Ok (PDict d) ->
    dict_get d "query" = Some q ->
    truthy q = true ->
    agent_query w agent_ q = Ok r ->
    str_form r = T ->
    exists reply l,
      Standalone.query_endpoint API_TOKEN agent_ w request st = (Ok reply, st, l) /\
      Standalone.status reply = 200 /\
      Standalone.payload reply = PDict [("result", PStr T)].

(* ===================================================================== *)
(** ** Facts about the string operations *)
(* ===================================================================== *)

Section Strings.

Lemma no_space_cons c r :
  no_space (String c r) <-> is_space c = false /\ no_space r.
Proof.
  unfold no_space; simpl. rewrite andb_true_iff, negb_true_iff. tauto.
Qed.

Lemma no_char_cons sep c r :
  no_char sep (String c r) <-> Ascii.eqb c sep = false /\ no_char sep r.
Proof.
  unfold no_char; simpl. rewrite andb_true_iff, negb_true_iff. tauto.
Qed.

Lemma split_ws_cons_nonspace c r :
  is_space c = false -> split_ws (String c r) <> [].
Proof.
  intros Hc. simpl. rewrite Hc.
  destruct r as [|c' r']; [discriminate|].
  destruct (is_space c'); [discriminate|].
  destruct (split_ws (String c' r')); discriminate.
Qed.

(** [s.split()] is empty exactly on the strings made of whitespace. *)
Lemma split_ws_nil_iff s : split_ws s = [] <-> all_space s = true.
Proof.
  induction s as [|c r IH].
  - simpl. tauto.
  - unfold all_space in *. simpl forallb.
    destruct (is_space c) eqn:Hc.
    + simpl. rewrite Hc. exact IH.
    + split; intros H.
      * exfalso. exact (split_ws_cons_nonspace c r Hc H).
      * discriminate.
Qed.

Lemma split_ws_single t : no_space t -> t <> "" -> split_ws t = [t].
Proof.
  induction t as [|c r IH]; intros Hns Hne; [congruence|].
  apply no_space_cons in Hns. destruct Hns as [Hc Hr].
  simpl. rewrite Hc. destruct r as [|c' r']; [reflexivity|].
  pose proof Hr as Hr'. apply no_space_cons in Hr'. destruct Hr' as [Hc' _].
  rewrite Hc'. rewrite IH by (auto; discriminate). reflexivity.
Qed.

Lemma split_ws_pair a sp t :
  no_space a -> a <> "" -> is_space sp = true -> no_space t -> t <> "" ->
  split_ws (a ++ String sp t) = [a; t].
Proof.
  intros Ha Hane Hsp Ht Htne.
  induction a as [|c r IH]; [congruence|].
  apply no_space_cons in Ha. destruct Ha as [Hc Hr].
  change (String c r ++ String sp t) with (String c (r ++ String sp t)).
  destruct r as [|c' r'].
  - simpl. rewrite Hc, Hsp. rewrite split_ws_single by assumption. reflexivity.
  - pose proof Hr as Hr'. apply no_space_cons in Hr'. destruct Hr' as [Hc' _].
    assert (E : split_ws (String c' r' ++ String sp t) = [String c' r'; t])
      by (apply IH; [assumption | discriminate]).
    simpl in E |- *. rewrite Hc, Hc'. rewrite Hc' in E. rewrite E. reflexivity.
Qed.

Lemma split_on_nonempty sep s : split_on sep s <> [].
Proof.
  destruct s as [|c r]; simpl; [discriminate|].
  destruct (Ascii.eqb c sep); [discriminate|].
  destruct (split_on sep r); discriminate.
Qed.

Lemma split_on_single sep t : no_char sep t -> split_on sep t = [t].
Proof.
  induction t as [|c r IH]; intros H; [reflexivity|].
  apply no_char_cons in H. destruct H as [Hc Hr].
  simpl. rewrite Hc, IH by assumption. reflexivity.
Qed.

Lemma prefix_app p s : prefix p s = true -> exists r, s = p ++ r.
Proof.
  revert s. induction p as [|a p IH]; intros s H.
  - exists s. reflexivity.
  - destruct s as [|b s]; simpl in H; [discriminate|].
    destruct (ascii_dec a b) as [->|]; [|discriminate].
    destruct (IH _ H) as [r ->]. exists r. reflexivity.
Qed.

Lemma prefix_app_true p r : prefix p (p ++ r) = true.
Proof.
  induction p as [|a p IH]; simpl.
  - destruct r; reflexivity.
  - destruct (ascii_dec a a); [exact IH | congruence].
Qed.

(** After the scheme, element 1 of the space-split is the text up to the
    next space. *)
Lemma split_on_bearer rest :
  split_on " " ("Bearer " ++ rest) = "Bearer" :: split_on " " rest.
Proof.
  simpl. destruct (split_on " " rest) eqn:E; [|reflexivity].
  exfalso. exact (split_on_nonempty _ _ E).
Qed.

Lemma split_on_bearer_index h :
  startswith h "Bearer " = true ->
  exists t, nth_error (split_on " " h) 1 = Some t.
Proof.
  intros H. destruct (prefix_app _ _ H) as [rest ->].
  rewrite split_on_bearer.
  destruct (split_on " " rest) as [|t ts] eqn:E.
  - exfalso. exact (split_on_nonempty _ _ E).
  - exists t. reflexivity.
Qed.

Lemma string_eqb_neq (a b : string) : a <> b -> (a =? b)%string = false.
Proof. intros H. apply String.eqb_neq. exact H. Qed.

End Strings.

(* ===================================================================== *)
(** ** Runs of the serverless handler *)
(* ===================================================================== *)

Section ServerlessRuns.

Variable cfg : Config.
Variable names : FreeNames.
Variable json : JsonLib.
Variable w : World.

Lemma last_cons_default (x : string) l d d' :
  last (x :: l) d = last (x :: l) d'.
Proof.
  revert x. induction l as [|y l IH]; intros x; [reflexivity|].
  change (last (x :: y :: l) d) with (last (y :: l) d).
  change (last (x :: y :: l) d') with (last (y :: l) d').
  apply IH.
Qed.

Lemma nth_error_last (p : string) ps :
  nth_error (p :: ps) (length ps) = Some (last ps p).
Proof.
  revert p. induction ps as [|q ps IH]; intros p; [reflexivity|].
  simpl nth_error. rewrite IH. f_equal.
  destruct ps as [|r ps]; [reflexivity|].
  change (last (q :: r :: ps) p) with (last (r :: ps) p).
  apply last_cons_default.
Qed.

(** The pure content of lines 226 to 228. *)
Lemma token_parts_index h (st : ModuleState) :
  (let token_parts := split_ws h in
   if (1 <? length token_parts)%nat
   then index token_parts (length token_parts - 1)
   else index token_parts 0) st
  = match received_token h with
    | Some t => (Ok t, st, [])
    | None => (Raise (Exn IndexError "list index out of range"), st, [])
    end.
Proof.
  unfold received_token. cbv zeta.
  destruct (split_ws h) as [|p [|q ps]]; try reflexivity.
  change (1 <? length (p :: q :: ps))%nat with true. cbv iota.
  replace (length (p :: q :: ps) - 1)%nat with (length (q :: ps))
    by (simpl; lia).
  unfold index. rewrite nth_error_last. reflexivity.
Qed.

Lemma gate_tail_run a st :
  truthy a = true ->
  ((if negb (truthy a) then
     ret (Some (error_response json 401 "Missing authentication token"))
   else
     token_parts <- method_split a ;;
     received <- (if (1 <? length token_parts)%nat
                  then index token_parts (length token_parts - 1)
                  else index token_parts 0) ;;
     expected <- global "FUNCTION_API_TOKEN" (FUNCTION_API_TOKEN names) ;;
     if negb (received =? expected)%string then
       ret (Some (error_response json 403 "Invalid authentication token"))
     else ret None) : M ModuleState (option Response)) st
  = (gate_outcome names json a, st, []).
Proof.
  intros Ta. unfold gate_outcome. rewrite Ta. cbv [negb].
  destruct a; try reflexivity.
  pose proof (token_parts_index s st) as E. cbv zeta in E.
  cbn -[Nat.ltb index split_ws received_token Nat.sub length].
  unfold m_bind at 1.
  rewrite E. destruct (received_token s) as [t|]; [|reflexivity].
  destruct (FUNCTION_API_TOKEN names) as [secret|]; [|reflexivity].
  cbn. destruct (t =? secret)%string; reflexivity.
Qed.

Lemma auth_gate_run event hs st :
  dict_get_default event "headers" (PDict []) = PDict hs ->
  auth_gate names json event st = (gate_outcome names json (authorization_of hs), st, []).
Proof.
  intros Hh. unfold auth_gate, authorization_of, py_or.
  rewrite Hh. cbn [method_get].
  pose proof gate_tail_run as G.
  cbn [bind ret Monad_M] in G |- *.
  generalize (dict_get_default hs "Authorization" PNone)
             (dict_get_default hs "authorization" PNone).
  intros a1 a2.
  unfold m_bind at 1. unfold m_ret at 1. cbv beta iota.
  unfold m_bind at 1.
  destruct (truthy a1) eqn:T1.
  - unfold m_ret at 1. cbv beta iota. rewrite (G a1 st T1). reflexivity.
  - unfold m_ret at 1. cbv beta iota.
    pose proof (G a2 st) as G2. unfold gate_outcome in G2 |- *.
    destruct (truthy a2).
    + rewrite (G2 eq_refl). reflexivity.
    + reflexivity.
Qed.

(** *** The bootstrap *)

Ltac bootstrap_step :=
  match goal with
  | |- context [construct w ?s] => destruct (construct w s) eqn:?
  | |- context [CHROMA_COLLECTION_NAME names] =>
      destruct (CHROMA_COLLECTION_NAME names) eqn:?
  | |- context [OPENAI_EMBEDDING_MODEL_NAME names] =>
      destruct (OPENAI_EMBEDDING_MODEL_NAME names) eqn:?
  | |- context [OPENAI_API_KEY names] => destruct (OPENAI_API_KEY names) eqn:?
  | |- context [OPENAI_MODEL_NAME names] =>
      destruct (OPENAI_MODEL_NAME names) eqn:?
  | |- context [VERBOSE names] => destruct (VERBOSE names) eqn:?
  | |- context [ssm_get_parameter w ?n] =>
      destruct (ssm_get_parameter w n) eqn:?
  end; cbn.

(** What a run of the [try] body can be: it fails and leaves the module as
    it was, or it succeeds and has assigned [agent]. *)
Lemma build_agent_run st :
  exists r st' l,
    build_agent cfg names w st = (r, st', l) /\
    forallb bootstrap_call l = true /\
    match r with
    | Raise _ => st' = st
    | Ok _ => exists a, st' = set_agent a st
    end.
Proof.
  unfold build_agent, service, call, global. cbn.
  repeat bootstrap_step;
    do 3 eexists; (split; [reflexivity|]); (split; [reflexivity|]);
    try reflexivity; eexists; reflexivity.
Qed.

(** Every run of [initialize_agent]: a no-op on a built agent; otherwise a
    fresh attempt that starts at the parameter store and leaves [agent]
    unset unless it completes. *)
Lemma initialize_agent_run st :
  exists r st' l,
    initialize_agent cfg names w st = (r, st', l) /\
    forallb bootstrap_call l = true /\
    match agent st with
    | Some _ => r = Ok tt /\ st' = st /\ l = []
    | None =>
        match r with
        | Raise _ => agent st' = None
        | Ok _ => agent st' <> None
        end /\
        exists l', l = SsmGetParameter (SSM_PARAM_API_KEY cfg) :: l'
    end.
Proof.
  unfold initialize_agent, get_api_key, get_auth_token, call.
  cbn -[build_agent].
  destruct (agent st) eqn:Ha.
  - do 3 eexists. repeat split; reflexivity.
  - destruct (ssm_get_parameter w (SSM_PARAM_API_KEY cfg)) as [k|e1];
      cbn -[build_agent].
    2: { do 3 eexists. split; [reflexivity|]. split; [reflexivity|].
         split; [exact Ha | eexists; reflexivity]. }
    destruct (ssm_get_parameter w (SSM_PARAM_AUTH_TOKEN cfg)) as [t|e2];
      cbn -[build_agent].
    2: { do 3 eexists. split; [reflexivity|]. split; [reflexivity|].
         split; [exact Ha | eexists; reflexivity]. }
    unfold m_catch, m_raise.
    match goal with
    | |- context [build_agent cfg names w ?s] =>
        destruct (build_agent_run s) as (r & st' & l & E & Hl & Hr)
    end.
    rewrite E. destruct r as [[]|e]; cbn.
    + do 3 eexists. split; [reflexivity|]. split; [exact Hl|].
      split; [|eexists; reflexivity].
      destruct Hr as [a ->]. discriminate.
    + do 3 eexists. split; [reflexivity|].
      split; [rewrite app_nil_r; exact Hl|].
      split; [|eexists; reflexivity].
      subst st'. exact Ha.
Qed.

Lemma initialize_agent_warm st a :
  agent st = Some a -> initialize_agent cfg names w st = (Ok tt, st, []).
Proof.
  intros Ha. destruct (initialize_agent_run st) as (r & st' & l & E & _ & H).
  rewrite Ha in H. destruct H as (-> & -> & ->). exact E.
Qed.

Lemma initialize_agent_calls st r st' l :
  initialize_agent cfg names w st = (r, st', l) ->
  forallb bootstrap_call l = true.
Proof.
  intros E. destruct (initialize_agent_run st) as (r0 & st0 & l0 & E0 & H & _).
  congruence.
Qed.

Lemma initialize_agent_ok st st' l :
  initialize_agent cfg names w st = (Ok tt, st', l) ->
  exists a, agent st' = Some a.
Proof.
  intros E. destruct (initialize_agent_run st) as (r0 & st0 & l0 & E0 & _ & H).
  rewrite E in E0. injection E0 as <- <- <-.
  destruct (agent st) eqn:Ha.
  - destruct H as (_ & -> & _). eauto.
  - destruct H as (H & _). destruct (agent st'); [eauto | congruence].
Qed.

Lemma initialize_agent_raise st e st' l :
  initialize_agent cfg names w st = (Raise e, st', l) ->
  agent st = None /\ agent st' = None.
Proof.
  intros E. destruct (initialize_agent_run st) as (r0 & st0 & l0 & E0 & _ & H).
  rewrite E in E0. injection E0 as <- <- <-.
  destruct (agent st) eqn:Ha.
  - destruct H as (H & _). discriminate.
  - destruct H as (H & _). split; [reflexivity | exact H].
Qed.

(** *** The handler around the bootstrap *)

Lemma lambda_handler_init_raise event st e st1 l1 :
  initialize_agent cfg names w st = (Raise e, st1, l1) ->
  lambda_handler cfg names json w event st = (Ok (init_failed json), st1, l1).
Proof.
  intros E. unfold lambda_handler. cbn -[initialize_agent].
  unfold m_bind at 1. unfold m_catch at 1. unfold m_bind at 1.
  rewrite E. cbn. rewrite !app_nil_r. reflexivity.
Qed.

Lemma lambda_handler_init_ok event st st1 l1 :
  initialize_agent cfg names w st = (Ok tt, st1, l1) ->
  lambda_handler cfg names json w event st = after l1 (routed names json w event st1).
Proof.
  intros E. unfold lambda_handler. cbn -[initialize_agent auth_gate dispatch].
  unfold m_bind at 1. unfold m_catch at 1. unfold m_bind at 1.
  rewrite E. unfold m_ret at 1. cbv beta iota. rewrite app_nil_r.
  unfold routed, after. cbn -[auth_gate dispatch]. reflexivity.
Qed.

(** *** The dispatch *)

Lemma dispatch_missing_query event raw d st :
  dict_get_default event "body" (PStr "{}") = PStr raw ->
  loads json raw = Some (PDict d) ->
  truthy (dict_get_default d "query" PNone) = false ->
  dispatch json w event st
  = (Ok (error_response json 400 "Missing query parameter"), st,
     [JsonLoads (PStr raw)]).
Proof.
  intros Hb Hl Hq. unfold dispatch, json_loads, call. rewrite Hb.
  cbn. rewrite Hl. cbn. rewrite Hq. reflexivity.
Qed.

Lemma dispatch_answer event raw d q a r st :
  dict_get_default event "body" (PStr "{}") = PStr raw ->
  loads json raw = Some (PDict d) ->
  dict_get_default d "query" PNone = q ->
  truthy q = true ->
  agent st = Some a ->
  agent_query w a q = Ok r ->
  dispatch json w event st
  = (Ok (success_response json (result_of r)), st,
     [JsonLoads (PStr raw); AgentQuery q]).
Proof.
  intros Hb Hl Hq Ht Ha Hr. unfold dispatch, json_loads, run_query, call.
  rewrite Hb. cbn. rewrite Hl. cbn. rewrite Hq, Ht. cbn.
  unfold m_catch, m_bind, m_ret, m_raise. cbn.
  rewrite Ha. rewrite Hr. reflexivity.
Qed.

Lemma dispatch_agent_raises event raw d q a e st :
  dict_get_default event "body" (PStr "{}") = PStr raw ->
  loads json raw = Some (PDict d) ->
  dict_get_default d "query" PNone = q ->
  truthy q = true ->
  agent st = Some a ->
  agent_query w a q = Raise e ->
  dispatch json w event st
  = (Ok (failure_response json (exn_str e)), st,
     [JsonLoads (PStr raw); AgentQuery q]).
Proof.
  intros Hb Hl Hq Ht Ha Hr. unfold dispatch, json_loads, run_query, call.
  rewrite Hb. cbn. rewrite Hl. cbn. rewrite Hq, Ht. cbn.
  unfold m_catch, m_bind, m_ret, m_raise. cbn.
  rewrite Ha. rewrite Hr. reflexivity.
Qed.

(** [run_query] never raises, whatever the agent does. *)
Lemma run_query_total q st :
  exists result l, Serverless.run_query w q st = (Ok result, st, l).
Proof.
  unfold Serverless.run_query, call. cbn.
  unfold m_catch, m_bind, m_ret, m_raise. cbn.
  destruct (agent st) as [a|]; cbn.
  - destruct (agent_query w a q); cbn; eauto.
  - eauto.
Qed.

End ServerlessRuns.

(* ===================================================================== *)
(** ** Runs of the standalone server *)
(* ===================================================================== *)

Section StandaloneRuns.

Variable API_TOKEN : string.
Variable agent_ : AgentHandle.
Variable w : World.

(** The decorator never raises by itself: it answers 401 or calls the view. *)
Lemma token_required_run f request st :
  Standalone.token_required API_TOKEN f request st
  = match bearer_token (Standalone.authorization request) with
    | None => (Ok missing_token, st, [])
    | Some t =>
        if negb (truthy (PStr t)) then (Ok missing_token, st, [])
        else if negb (t =? API_TOKEN)%string then (Ok invalid_token, st, [])
        else f request st
    end.
Proof.
  unfold Standalone.token_required, bearer_token.
  destruct (Standalone.authorization request) as [h|]; [|reflexivity].
  destruct (truthy (PStr h)); [|reflexivity].
  destruct (startswith h "Bearer ") eqn:Hp; [|reflexivity].
  destruct (split_on_bearer_index h Hp) as [t Ht].
  unfold index. rewrite Ht. cbn.
  unfold m_bind, m_ret.
  destruct (t =? "")%string; [reflexivity|].
  destruct (t =? API_TOKEN)%string; [|reflexivity].
  cbn. destruct (f request st) as [[r s'] l]. reflexivity.
Qed.

Lemma bearer_token_bearer t :
  t <> "" -> no_char " " t -> bearer_token (bearer t) = Some t.
Proof.
  intros Hne Hns. unfold bearer_token, bearer.
  change (truthy (PStr ("Bearer " ++ t))) with true. cbv iota.
  unfold startswith. rewrite prefix_app_true.
  rewrite split_on_bearer, split_on_single by assumption. reflexivity.
Qed.

Lemma truthy_str t : t <> "" -> truthy (PStr t) = true.
Proof.
  intros H. simpl. rewrite string_eqb_neq by assumption. reflexivity.
Qed.

Lemma query_view_missing request d st :
  Standalone.get_json request = Ok (PDict d) ->
  dict_get d "query" = None ->
  Standalone.query_view agent_ w request st
  = (Ok (Standalone.jsonify [("error", PStr "Missing query parameter")] 400),
     st, [GetJson]).
Proof.
  intros Hj Hq. unfold Standalone.query_view, call. rewrite Hj. cbn.
  unfold m_bind, m_ret. cbn. destruct d as [|kv d']; [reflexivity|].
  cbn -[dict_get]. rewrite Hq. reflexivity.
Qed.

Lemma query_view_answer request d q r st :
  Standalone.get_json request = Ok (PDict d) ->
  dict_get d "query" = Some q ->
  agent_query w agent_ q = Ok r ->
  Standalone.query_view agent_ w request st
  = (Ok (Standalone.jsonify [("result", PStr (str_form r))] 200),
     st, [GetJson; AgentQuery q]).
Proof.
  intros Hj Hq Hr.
  unfold Standalone.query_view, Standalone.run_query, call. rewrite Hj. cbn.
  unfold m_bind, m_ret, m_catch. cbn. destruct d as [|kv d']; [discriminate|].
  cbn -[dict_get]. rewrite Hq. cbn. rewrite Hr. reflexivity.
Qed.

Lemma query_view_agent_raises request d q e st :
  Standalone.get_json request = Ok (PDict d) ->
  dict_get d "query" = Some q ->
  agent_query w agent_ q = Raise e ->
  Standalone.query_view agent_ w request st
  = (Ok (Standalone.jsonify [("error", PStr (exn_str e))] 500),
     st, [GetJson; AgentQuery q]).
Proof.
  intros Hj Hq Hr.
  unfold Standalone.query_view, Standalone.run_query, call. rewrite Hj. cbn.
  unfold m_bind, m_ret, m_catch. cbn. destruct d as [|kv d']; [discriminate|].
  cbn -[dict_get]. rewrite Hq. cbn. rewrite Hr. reflexivity.
Qed.

End StandaloneRuns.

(* ===================================================================== *)
(** ** The agent bootstrap *)
(* ===================================================================== *)

Lemma bootstrap_only_no_parse l :
  forallb bootstrap_call l = true -> no_calls parse_call l /\ no_calls query_call l.
Proof.
  unfold no_calls. induction l as [|c l IH]; intros H; [split; reflexivity|].
  simpl in H. apply andb_true_iff in H. destruct H as [Hc Hl].
  destruct (IH Hl) as [IH1 IH2].
  destruct c; simpl in *; try discriminate; rewrite ?IH1, ?IH2; split; reflexivity.
Qed.

(** With every name bound and every service up, a cold module gets its
    agent. *)
Lemma initialize_agent_healthy cfg secret answer st :
  agent st = None ->
  exists st' l,
    initialize_agent cfg (bound secret) (healthy answer) st = (Ok tt, st', l) /\
    agent st' = Some sample_agent.
Proof.
  intros Ha. unfold initialize_agent. cbn. rewrite Ha. cbn.
  do 2 eexists. split; reflexivity.
Qed.

(** In the module as written the [try] body of [initialize_agent] stops at
    [CHROMA_COLLECTION_NAME] at the latest: a cold module never gets its
    agent, and every invocation answers 500. *)
Lemma as_written_never_ready cfg w st :
  agent st = None ->
  exists e st' l,
    initialize_agent cfg as_written w st = (Raise e, st', l) /\ agent st' = None.
Proof.
  intros Ha.
  destruct (initialize_agent_run cfg as_written w st) as (r & st' & l & E & _ & H).
  rewrite Ha in H. destruct H as (H & _).
  destruct r as [[]|e]; [|eauto].
  exfalso. revert E. unfold initialize_agent, get_api_key, get_auth_token, call.
  cbn. rewrite Ha.
  destruct (ssm_get_parameter w (SSM_PARAM_API_KEY cfg)); cbn; [|discriminate].
  destruct (ssm_get_parameter w (SSM_PARAM_AUTH_TOKEN cfg)); cbn; [|discriminate].
  unfold m_catch, m_bind, m_raise, build_agent, service, call. cbn.
  destruct (construct w (HttpClient (CHROMA_HOST cfg) (CHROMA_PORT cfg)));
    cbn; discriminate.
Qed.

Lemma as_written_always_500 cfg json w event st :
  agent st = None ->
  exists st' l,
    lambda_handler cfg as_written json w event st = (Ok (init_failed json), st', l).
Proof.
  intros Ha. destruct (as_written_never_ready cfg w st Ha) as (e & st' & l & E & _).
  exists st', l. exact (lambda_handler_init_raise cfg as_written json w event st _ _ _ E).
Qed.

Ltac split_outcome w names :=
  match goal with
  | |- context [construct w ?s] => destruct (construct w s) eqn:?
  | |- context [CHROMA_COLLECTION_NAME names] =>
      destruct (CHROMA_COLLECTION_NAME names) eqn:?
  | |- context [OPENAI_EMBEDDING_MODEL_NAME names] =>
      destruct (OPENAI_EMBEDDING_MODEL_NAME names) eqn:?
  | |- context [OPENAI_API_KEY names] => destruct (OPENAI_API_KEY names) eqn:?
  | |- context [OPENAI_MODEL_NAME names] =>
      destruct (OPENAI_MODEL_NAME names) eqn:?
  | |- context [VERBOSE names] => destruct (VERBOSE names) eqn:?
  end; cbn.

(** A completed [try] body: every name was bound, the nine constructors
    were called in the order of the code, and [agent] was assigned. *)
Lemma build_agent_ok cfg names w st st' l :
  build_agent cfg names w st = (Ok tt, st', l) ->
  exists collection embed_name key llm_name verbose,
    CHROMA_COLLECTION_NAME names = Some collection /\
    OPENAI_EMBEDDING_MODEL_NAME names = Some embed_name /\
    OPENAI_API_KEY names = Some key /\
    OPENAI_MODEL_NAME names = Some llm_name /\
    VERBOSE names = Some verbose /\
    l = [Construct (HttpClient (CHROMA_HOST cfg) (CHROMA_PORT cfg));
         Construct (get_collection collection);
         Construct ChromaVectorStore;
         Construct (OpenAIEmbedding embed_name key);
         Construct (OpenAI llm_name key);
         Construct from_vector_store;
         Construct as_query_engine;
         Construct QueryEngineTool_from_defaults;
         Construct (ReActAgent_from_tools verbose)] /\
    st' = set_agent {| tool_name := "people";
                       tool_description := "descriptions for various types of people";
                       agent_verbose := verbose |} st.
Proof.
  unfold build_agent, service, call, global. cbn.
  repeat split_outcome w names; intros H; try discriminate H.
  injection H as <- <-.
  do 5 eexists. repeat split; reflexivity.
Qed.

(** A call of the [try] body that raised ended it with its exception. *)
Lemma build_agent_failure cfg names w st r st' l :
  build_agent cfg names w st = (r, st', l) ->
  forall c e, In c l -> raised_by w c = Some e -> r = Raise e.
Proof.
  unfold build_agent, service, call, global. cbn.
  repeat split_outcome w names;
    intros H; injection H as <- <- <-; intros call_ raised Hin Hr;
    simpl in Hin;
    repeat (destruct Hin as [Hin|Hin]; [subst call_; simpl in Hr; congruence|]);
    destruct Hin.
Qed.

(** A call of the bootstrap that raised ended it with its exception, and
    [agent] is unset. *)
Lemma initialize_agent_failure cfg names w st r st' l :
  agent st = None ->
  initialize_agent cfg names w st = (r, st', l) ->
  forall c e, In c l -> raised_by w c = Some e -> r = Raise e /\ agent st' = None.
Proof.
  intros Ha H c e Hin Hr.
  assert (R : r = Raise e).
  { revert H Hin.
    unfold initialize_agent, get_api_key, get_auth_token, call.
    cbn -[build_agent]. rewrite Ha. cbn -[build_agent].
    destruct (ssm_get_parameter w (SSM_PARAM_API_KEY cfg)) as [k|e1] eqn:Hk;
      cbn -[build_agent].
    2: { intros H. injection H as <- <- <-. intros [<-|[]].
         simpl in Hr. rewrite Hk in Hr. congruence. }
    destruct (ssm_get_parameter w (SSM_PARAM_AUTH_TOKEN cfg)) as [t|e2] eqn:Ht;
      cbn -[build_agent].
    2: { intros H. injection H as <- <- <-. intros [<-|[<-|[]]]; simpl in Hr.
         - rewrite Hk in Hr. discriminate Hr.
         - rewrite Ht in Hr. congruence. }
    unfold m_catch, m_raise.
    destruct (build_agent cfg names w
                (set_environ (Some k) (set_auth_token t (set_api_key k st))))
      as [[rb sb] lb] eqn:Eb.
    destruct rb as [[]|eb]; intros H; injection H as <- <- <-;
      rewrite ?app_nil_r; intros [<-|[<-|Hin]]; simpl in Hr;
      try (rewrite Hk in Hr; discriminate Hr);
      try (rewrite Ht in Hr; discriminate Hr);
      exact (build_agent_failure cfg names w _ _ _ _ Eb c e Hin Hr). }
  subst r. split; [reflexivity|].
  exact (proj2 (initialize_agent_raise cfg names w st e st' l H)).
Qed.

(** A bootstrap completed on a module without agent: every free name was
    bound, the two reads and the nine constructors were made, and [agent]
    holds the handle built. *)
Lemma initialize_agent_completed cfg names w st st' l :
  agent st = None ->
  initialize_agent cfg names w st = (Ok tt, st', l) ->
  length l = 11%nat /\
  exists collection embed_name key llm_name verbose,
    CHROMA_COLLECTION_NAME names = Some collection /\
    OPENAI_EMBEDDING_MODEL_NAME names = Some embed_name /\
    OPENAI_API_KEY names = Some key /\
    OPENAI_MODEL_NAME names = Some llm_name /\
    VERBOSE names = Some verbose /\
    agent st' = Some {| tool_name := "people";
                        tool_description := "descriptions for various types of people";
                        agent_verbose := verbose |}.
Proof.
  intros Ha.
  unfold initialize_agent, get_api_key, get_auth_token, call.
  cbn -[build_agent]. rewrite Ha. cbn -[build_agent].
  destruct (ssm_get_parameter w (SSM_PARAM_API_KEY cfg)) as [k|e1];
    cbn -[build_agent]; [|discriminate].
  destruct (ssm_get_parameter w (SSM_PARAM_AUTH_TOKEN cfg)) as [t|e2];
    cbn -[build_agent]; [|discriminate].
  unfold m_catch, m_raise.
  destruct (build_agent cfg names w
              (set_environ (Some k) (set_auth_token t (set_api_key k st))))
    as [[[[]|e3] s3] l3] eqn:E3; intros H; [|discriminate H].
  injection H as <- <-.
  destruct (build_agent_ok cfg names w _ _ _ E3)
    as (collection & embed_name & key & llm_name & verbose
        & H1 & H2 & H3 & H4 & H5 & -> & ->).
  split; [reflexivity|].
  exists collection, embed_name, key, llm_name, verbose.
  repeat split; assumption || reflexivity.
Qed.

(** Claim C7.  [initialize_agent] is idempotent and failure-safe.  On a
    built agent it returns at once, changing nothing and calling nothing.
    On a module without agent, every call it makes that raises (a read of
    the parameter store, any of the nine constructors) ends it with that
    exception and [agent] is still unset; it completes only when every
    call it made returned and every free name was bound, and only then is
    [agent] assigned.  When it raises, [agent] is unset, so the next
    invocation, whatever it is, opens with a fresh attempt starting at the
    parameter store instead of reusing a handle; and that attempt builds
    the agent when every name is bound and every service answers. *)
Theorem C7_bootstrap_idempotent_failure_safe :
  forall cfg names w st,
    (forall a, agent st = Some a ->
       initialize_agent cfg names w st = (Ok tt, st, [])) /\
    (forall e st' l,
       initialize_agent cfg names w st = (Raise e, st', l) ->
       agent st' = None /\
       (forall names2 json2 w2 event, exists r st2 l2,
          lambda_handler cfg names2 json2 w2 event st'
          = (r, st2, SsmGetParameter (SSM_PARAM_API_KEY cfg) :: l2)) /\
       (forall secret answer, exists st2 l2,
          initialize_agent cfg (bound secret) (healthy answer) st' = (Ok tt, st2, l2) /\
          agent st2 = Some sample_agent)) /\
    (forall r st' l c e,
       agent st = None ->
       initialize_agent cfg names w st = (r, st', l) ->
       In c l ->
       raised_by w c = Some e ->
       r = Raise e /\ agent st' = None) /\
    (forall st' l,
       agent st = None ->
       initialize_agent cfg names w st = (Ok tt, st', l) ->
       (forall c, In c l -> raised_by w c = None) /\
       length l = 11%nat /\
       exists collection embed_name key llm_name verbose,
         CHROMA_COLLECTION_NAME names = Some collection /\
         OPENAI_EMBEDDING_MODEL_NAME names = Some embed_name /\
         OPENAI_API_KEY names = Some key /\
         OPENAI_MODEL_NAME names = Some llm_name /\
         VERBOSE names = Some verbose /\
         agent st' = Some {| tool_name := "people";
                             tool_description := "descriptions for various types of people";
                             agent_verbose := verbose |}).
Proof.
  intros cfg names w st. split; [|split; [|split]].
  - intros a Ha. exact (initialize_agent_warm cfg names w st a Ha).
  - intros e st' l E.
    destruct (initialize_agent_raise cfg names w st _ _ _ E) as [_ Hn].
    split; [exact Hn|]. split.
    + intros names2 json2 w2 event.
      destruct (initialize_agent_run cfg names2 w2 st')
        as (r & st2 & l2 & E2 & _ & H).
      rewrite Hn in H. destruct H as (_ & l' & ->).
      destruct r as [[]|e2].
      * rewrite (lambda_handler_init_ok cfg names2 json2 w2 event st' _ _ E2).
        destruct (routed names2 json2 w2 event st2) as [[r3 st3] l3].
        do 3 eexists. reflexivity.
      * rewrite (lambda_handler_init_raise cfg names2 json2 w2 event st' _ _ _ E2).
        do 3 eexists. reflexivity.
    + intros secret answer. apply initialize_agent_healthy. exact Hn.
  - intros r st' l c e Ha E Hin Hr.
    exact (initialize_agent_failure cfg names w st r st' l Ha E c e Hin Hr).
  - intros st' l Ha E. split.
    + intros c Hin. destruct (raised_by w c) as [e|] eqn:Hr; [|reflexivity].
      destruct (initialize_agent_failure cfg names w st _ _ _ Ha E c e Hin Hr)
        as [F _].
      discriminate F.
    + exact (initialize_agent_completed cfg names w st st' l Ha E).
Qed.

(** A first request during an outage of the parameter store leaves the
    agent unset; so does a first request whose collection does not exist,
    after both reads and the client were made; a built agent is kept. *)
Lemma C7_witness :
  initialize_agent sample_config (bound "secret123") outage cold
  = (Raise (Exn ServiceError "AccessDeniedException"), cold,
     [SsmGetParameter (Some "/agent/api-key")]) /\
  agent cold = None /\
  initialize_agent sample_config (bound "secret123") (healthy "") warm
  = (Ok tt, warm, []) /\
  fst (fst (initialize_agent sample_config (bound "secret123") no_collection cold))
  = Raise (Exn ServiceError "Collection knowledge does not exist.") /\
  agent (snd (fst (initialize_agent sample_config (bound "secret123")
                                    no_collection cold))) = None /\
  (forall c,
     In c (snd (initialize_agent sample_config (bound "secret123") (healthy "") cold)) ->
     raised_by (healthy "") c = None).
Proof.
  split; [reflexivity|]. split; [|split; [|split; [|split]]].
  - exact (proj1 (proj1 (proj2 (C7_bootstrap_idempotent_failure_safe
                                  sample_config (bound "secret123") outage cold))
                        _ _ _ eq_refl)).
  - exact (proj1 (C7_bootstrap_idempotent_failure_safe
                    sample_config (bound "secret123") (healthy "") warm)
                 sample_agent eq_refl).
  - exact (proj1 (proj1 (proj2 (proj2 (C7_bootstrap_idempotent_failure_safe
                                         sample_config (bound "secret123")
                                         no_collection cold)))
                        _ _ _ (Construct (get_collection "knowledge")) _
                        eq_refl eq_refl
                        (or_intror (or_intror (or_intror (or_introl eq_refl))))
                        eq_refl)).
  - exact (proj2 (proj1 (proj2 (proj2 (C7_bootstrap_idempotent_failure_safe
                                         sample_config (bound "secret123")
                                         no_collection cold)))
                        _ _ _ (Construct (get_collection "knowledge")) _
                        eq_refl eq_refl
                        (or_intror (or_intror (or_intror (or_introl eq_refl))))
                        eq_refl)).
  - exact (proj1 (proj2 (proj2 (proj2 (C7_bootstrap_idempotent_failure_safe
                                         sample_config (bound "secret123")
                                         (healthy "") cold)))
                        _ _ eq_refl eq_refl)).
Defined.

(* ===================================================================== *)
(** ** Methods other than POST *)
(* ===================================================================== *)

(** An OPTIONS invocation of a cold module while the parameter store is
    down is answered 500. *)
Lemma C8_counterexample :
  lambda_handler sample_config as_written (stub_json "" PNone) outage
                 options_request cold
  = (Ok (init_failed (stub_json "" PNone)), cold,
     [SsmGetParameter (Some "/agent/api-key")]) /\
  statusCode (init_failed (stub_json "" PNone)) = 500 /\
  ~ preflight_always.
Proof.
  split; [reflexivity|]. split; [reflexivity|].
  intros H.
  destruct (H sample_config as_written (stub_json "" PNone) outage
              options_request cold eq_refl) as (resp & st' & l & E & Hs).
  vm_compute in E. injection E as <- _ _. discriminate Hs.
Qed.

(** Claim C8, amended.  For every invocation whose httpMethod is OPTIONS and
    whose bootstrap step completes, the handler returns the preflight
    response: status 200, empty body, the three permissive CORS headers;
    headers and body of the request are not looked at, so no credential is
    needed, and only the bootstrap made calls. *)
Theorem C8_preflight_after_bootstrap :
  forall cfg names json w event st st1 l1,
    eq_str (method_of event) "OPTIONS" = true ->
    initialize_agent cfg names w st = (Ok tt, st1, l1) ->
    lambda_handler cfg names json w event st = (Ok preflight, st1, l1) /\
    statusCode preflight = 200 /\
    body preflight = "" /\
    In ("Access-Control-Allow-Origin", "*") (headers preflight) /\
    In ("Access-Control-Allow-Methods", "POST, OPTIONS") (headers preflight) /\
    In ("Access-Control-Allow-Headers", "Content-Type, Authorization")
       (headers preflight) /\
    forallb bootstrap_call l1 = true.
Proof.
  intros cfg names json w event st st1 l1 Hm E.
  split.
  - rewrite (lambda_handler_init_ok cfg names json w event st _ _ E).
    unfold routed. unfold method_of in Hm. rewrite Hm. cbn.
    rewrite app_nil_r. reflexivity.
  - repeat split; try (simpl; tauto).
    exact (initialize_agent_calls cfg names w st _ _ _ E).
Qed.

Lemma C8_witness :
  lambda_handler sample_config as_written (stub_json "" PNone) outage
                 options_request warm
  = (Ok preflight, warm, []).
Proof.
  exact (proj1 (C8_preflight_after_bootstrap
                  sample_config as_written (stub_json "" PNone) outage
                  options_request warm warm [] eq_refl eq_refl)).
Defined.

(** Claim C10.  For every invocation whose httpMethod is neither POST nor
    OPTIONS and whose bootstrap step completes, the handler returns 405
    with the [Method not allowed] error body.  The answer does not depend
    on the headers or the body of the event, and the only calls made are
    those of the bootstrap: the rejection comes before the gate and before
    the body is parsed. *)
Theorem C10_method_not_allowed :
  forall cfg names json w event st st1 l1,
    eq_str (method_of event) "OPTIONS" = false ->
    eq_str (method_of event) "POST" = false ->
    initialize_agent cfg names w st = (Ok tt, st1, l1) ->
    lambda_handler cfg names json w event st
    = (Ok (error_response json 405 "Method not allowed"), st1, l1) /\
    statusCode (error_response json 405 "Method not allowed") = 405 /\
    body (error_response json 405 "Method not allowed")
    = dumps json (PDict [("status", PStr "error");
                         ("message", PStr "Method not allowed")]) /\
    forallb bootstrap_call l1 = true /\
    no_calls parse_call l1 /\ no_calls query_call l1.
Proof.
  intros cfg names json w event st st1 l1 Ho Hp E.
  pose proof (initialize_agent_calls cfg names w st _ _ _ E) as Hl.
  split.
  - rewrite (lambda_handler_init_ok cfg names json w event st _ _ E).
    unfold routed. unfold method_of in Ho, Hp. rewrite Ho, Hp. cbn.
    rewrite app_nil_r. reflexivity.
  - split; [reflexivity|]. split; [reflexivity|]. split; [exact Hl|].
    exact (bootstrap_only_no_parse l1 Hl).
Qed.

(** A GET whose headers and body are null: the gate would raise on it, the
    handler answers 405 before reaching the gate. *)
Lemma C10_witness :
  lambda_handler sample_config (bound "secret123") (stub_json "" PNone)
                 (healthy "") get_request warm
  = (Ok (error_response (stub_json "" PNone) 405 "Method not allowed"), warm, []).
Proof.
  exact (proj1 (C10_method_not_allowed
                  sample_config (bound "secret123") (stub_json "" PNone)
                  (healthy "") get_request warm warm [] eq_refl eq_refl eq_refl)).
Defined.

(* ===================================================================== *)
(** ** Token extraction *)
(* ===================================================================== *)

(** The serverless extraction raises exactly on the headers that are not
    empty and hold only whitespace. *)
Lemma received_token_none_iff h :
  received_token h = None <-> all_space h = true.
Proof.
  unfold received_token. rewrite <- split_ws_nil_iff.
  destruct (split_ws h); split; intros H; congruence.
Qed.

Lemma whitespace_header_raises cfg names json w event hs h st st1 l1 :
  eq_str (method_of event) "POST" = true ->
  dict_get_default event "headers" (PDict []) = PDict hs ->
  authorization_of hs = PStr h ->
  (h =? "")%string = false ->
  all_space h = true ->
  initialize_agent cfg names w st = (Ok tt, st1, l1) ->
  lambda_handler cfg names json w event st
  = (Raise (Exn IndexError "list index out of range"), st1, l1).
Proof.
  intros Hm Hh Ha Hne Hsp E.
  rewrite (lambda_handler_init_ok cfg names json w event st _ _ E).
  unfold routed. unfold method_of in Hm.
  assert (Ho : eq_str (dict_get_default event "httpMethod" PNone) "OPTIONS" = false).
  { destruct (dict_get_default event "httpMethod" PNone); try reflexivity.
    simpl in Hm |- *. apply String.eqb_eq in Hm. subst. reflexivity. }
  rewrite Ho, Hm. cbn [negb bind Monad_M]. unfold m_bind.
  rewrite (auth_gate_run names json event hs st1 Hh).
  unfold gate_outcome. rewrite Ha. simpl truthy. rewrite Hne. cbn [negb].
  apply received_token_none_iff in Hsp. rewrite Hsp. cbn.
  rewrite app_nil_r. reflexivity.
Qed.

(** The standalone extraction stays in bounds: under the [Bearer ] guard
    element 1 of the space-split exists, and the decorator answers or calls
    the view. *)
Lemma standalone_extraction_total API_TOKEN f request st :
  (forall h, Standalone.authorization request = Some h ->
             startswith h "Bearer " = true ->
             exists t, nth_error (split_on " " h) 1 = Some t) /\
  (Standalone.token_required API_TOKEN f request st = f request st \/
   exists reply, Standalone.token_required API_TOKEN f request st = (Ok reply, st, [])).
Proof.
  split.
  - intros h _ Hp. exact (split_on_bearer_index h Hp).
  - rewrite token_required_run.
    destruct (bearer_token (Standalone.authorization request)) as [t|]; [|eauto].
    destruct (negb (truthy (PStr t))); [eauto|].
    destruct (negb (t =? API_TOKEN)%string); eauto.
Qed.

(** Claim C9, at the failing input.  A POST whose Authorization header is a
    single space: the header is not empty, so the 401 branch is skipped;
    [split()] returns the empty list; [token_parts[0]] raises [IndexError]
    outside every [try], and the handler returns no response.  This holds
    for every configuration, binding of the free names and world. *)
Theorem C9_blank_header_index_error :
  forall cfg names json w,
    lambda_handler cfg names json w blank_header_request warm
    = (Raise (Exn IndexError "list index out of range"), warm, []).
Proof.
  intros cfg names json w.
  exact (whitespace_header_raises cfg names json w blank_header_request
           [("Authorization", PStr " ")] " " warm warm []
           eq_refl eq_refl eq_refl eq_refl eq_refl
           (initialize_agent_warm cfg names w warm sample_agent eq_refl)).
Qed.

(* ===================================================================== *)
(** ** The authentication gate *)
(* ===================================================================== *)

Lemma post_not_options event :
  eq_str (method_of event) "POST" = true ->
  eq_str (method_of event) "OPTIONS" = false.
Proof.
  unfold method_of. destruct (dict_get_default event "httpMethod" PNone);
    try reflexivity.
  simpl. intros H. apply String.eqb_eq in H. subst. reflexivity.
Qed.

(** A POST after a completed bootstrap: the gate decides, then the
    dispatch runs. *)
Lemma lambda_handler_post cfg names json w event hs st st1 l1 :
  eq_str (method_of event) "POST" = true ->
  dict_get_default event "headers" (PDict []) = PDict hs ->
  initialize_agent cfg names w st = (Ok tt, st1, l1) ->
  lambda_handler cfg names json w event st
  = match gate_outcome names json (authorization_of hs) with
    | Ok None => after l1 (dispatch json w event st1)
    | Ok (Some r) => (Ok r, st1, l1)
    | Raise e => (Raise e, st1, l1)
    end.
Proof.
  intros Hm Hh E.
  rewrite (lambda_handler_init_ok cfg names json w event st _ _ E).
  unfold routed. pose proof (post_not_options event Hm) as Ho.
  unfold method_of in Hm, Ho. rewrite Ho, Hm. cbn [negb bind Monad_M].
  unfold m_bind. rewrite (auth_gate_run names json event hs st1 Hh).
  destruct (gate_outcome names json (authorization_of hs)) as [[r|]|e].
  - cbn. rewrite app_nil_r. reflexivity.
  - destruct (dispatch json w event st1) as [[r s] l]. reflexivity.
  - cbn. rewrite app_nil_r. reflexivity.
Qed.

Lemma gate_outcome_missing names json a :
  truthy a = false ->
  gate_outcome names json a
  = Ok (Some (error_response json 401 "Missing authentication token")).
Proof. intros H. unfold gate_outcome. rewrite H. reflexivity. Qed.

Lemma gate_outcome_token names json h t secret :
  received_token h = Some t ->
  FUNCTION_API_TOKEN names = Some secret ->
  gate_outcome names json (PStr h)
  = if (t =? secret)%string then Ok None
    else Ok (Some (error_response json 403 "Invalid authentication token")).
Proof.
  intros Ht Hs. unfold gate_outcome.
  assert (Hne : truthy (PStr h) = true).
  { simpl. destruct h; [discriminate Ht | reflexivity]. }
  rewrite Hne, Ht, Hs. reflexivity.
Qed.

Lemma received_token_bare secret :
  (secret =? "")%string = false -> no_space secret ->
  received_token secret = Some secret.
Proof.
  intros Hne Hns. unfold received_token.
  rewrite split_ws_single; [reflexivity | assumption |].
  intros ->. discriminate Hne.
Qed.

Lemma received_token_bearer secret :
  (secret =? "")%string = false -> no_space secret ->
  received_token ("Bearer " ++ secret) = Some secret.
Proof.
  intros Hne Hns. unfold received_token.
  change ("Bearer " ++ secret) with ("Bearer" ++ String " " secret).
  rewrite split_ws_pair; [reflexivity | reflexivity | discriminate
                         | reflexivity | assumption |].
  intros ->. discriminate Hne.
Qed.

Lemma no_char_not_bearer t : no_char " " t -> startswith t "Bearer " = false.
Proof.
  intros H. unfold startswith. destruct (prefix "Bearer " t) eqn:Hp; [|reflexivity].
  destruct (prefix_app _ _ Hp) as [r ->]. discriminate H.
Qed.

(** A POST without headers to a cold module.  With the parameter store
    down the answer is 500, not an auth failure; with every service up
    (and the free names bound) the answer is 401, but the whole bootstrap
    has run and the agent is built. *)
Lemma C1_counterexample :
  lambda_handler sample_config as_written stub outage (post [] "Q") cold
  = (Ok (init_failed stub), cold, [SsmGetParameter (Some "/agent/api-key")]) /\
  (exists l,
     lambda_handler sample_config (bound "secret123") stub (healthy "")
                    (post [] "Q") cold
     = (Ok (error_response stub 401 "Missing authentication token"), ready, l) /\
     length l = 11%nat /\ forallb bootstrap_call l = true) /\
  ~ gate_first.
Proof.
  split; [reflexivity|]. split.
  - eexists. split; [reflexivity|]. split; reflexivity.
  - intros H.
    destruct (H sample_config as_written stub outage [] "Q" cold eq_refl)
      as (resp & st' & l & E & [Hs|Hs] & _).
    + vm_compute in E. injection E as <- _ _. discriminate Hs.
    + vm_compute in E. injection E as <- _ _. discriminate Hs.
Qed.

(** Claim C1, amended.  Serverless: the handler first runs the bootstrap (a
    no-op on a built agent).  When that step completes, every POST whose
    Authorization value is absent or empty, or whose extracted token is not
    the secret bound to [FUNCTION_API_TOKEN], is answered 401 or 403, the
    module is as the bootstrap left it and nothing was called after the
    bootstrap: no body parsing, no agent query.  When that step raises, the
    answer is the 500 initialization failure, again without parsing or
    query.  Standalone: every request whose bearer token is not the secret
    is answered 401 by the decorator with no call at all: the body is not
    parsed, the agent is neither built nor queried. *)
Theorem C1_gate_before_parse_and_query :
  (forall cfg names json w event hs st st1 l1,
     eq_str (method_of event) "POST" = true ->
     dict_get_default event "headers" (PDict []) = PDict hs ->
     initialize_agent cfg names w st = (Ok tt, st1, l1) ->
     (truthy (authorization_of hs) = false \/
      exists h t secret,
        authorization_of hs = PStr h /\ received_token h = Some t /\
        FUNCTION_API_TOKEN names = Some secret /\ (t =? secret)%string = false) ->
     exists resp,
       lambda_handler cfg names json w event st = (Ok resp, st1, l1) /\
       auth_failure resp /\
       no_calls parse_call l1 /\ no_calls query_call l1) /\
  (forall cfg names json w event st e st1 l1,
     initialize_agent cfg names w st = (Raise e, st1, l1) ->
     lambda_handler cfg names json w event st = (Ok (init_failed json), st1, l1) /\
     statusCode (init_failed json) = 500 /\
     no_calls parse_call l1 /\ no_calls query_call l1) /\
  (forall API_TOKEN agent_ w request st,
     presents API_TOKEN (Standalone.authorization request) = false ->
     exists reply,
       Standalone.query_endpoint API_TOKEN agent_ w request st = (Ok reply, st, []) /\
       Standalone.status reply = 401).
Proof.
  split; [|split].
  - intros cfg names json w event hs st st1 l1 Hm Hh E Hc.
    pose proof (bootstrap_only_no_parse l1
                  (initialize_agent_calls cfg names w st _ _ _ E)) as Hl.
    rewrite (lambda_handler_post cfg names json w event hs st st1 l1 Hm Hh E).
    destruct Hc as [Hf | (h & t & secret & Ha & Ht & Hs & Hne)].
    + rewrite (gate_outcome_missing names json _ Hf).
      eexists. split; [reflexivity|]. split; [left; reflexivity | exact Hl].
    + rewrite Ha, (gate_outcome_token names json h t secret Ht Hs), Hne.
      eexists. split; [reflexivity|]. split; [right; reflexivity | exact Hl].
  - intros cfg names json w event st e st1 l1 E.
    split; [exact (lambda_handler_init_raise cfg names json w event st _ _ _ E)|].
    split; [reflexivity|].
    exact (bootstrap_only_no_parse l1
             (initialize_agent_calls cfg names w st _ _ _ E)).
  - intros API_TOKEN agent_ w request st Hp.
    unfold Standalone.query_endpoint. rewrite token_required_run.
    unfold presents in Hp.
    destruct (bearer_token (Standalone.authorization request)) as [t|].
    + destruct (negb (truthy (PStr t))).
      * exists missing_token. split; reflexivity.
      * rewrite Hp. exists invalid_token. split; reflexivity.
    + exists missing_token. split; reflexivity.
Qed.

Lemma C1_witness :
  (exists resp,
     lambda_handler sample_config (bound "secret123") stub (healthy "")
                    (post [("Authorization", PStr "Bearer wrong")] "Q") warm
     = (Ok resp, warm, []) /\ auth_failure resp /\
     no_calls parse_call [] /\ no_calls query_call []) /\
  lambda_handler sample_config (bound "secret123") stub outage
                 (post [] "Q") cold
  = (Ok (init_failed stub), cold, [SsmGetParameter (Some "/agent/api-key")]) /\
  (exists reply,
     Standalone.query_endpoint "secret123" sample_agent (healthy "")
       {| Standalone.authorization := Some "secret123";
          Standalone.get_json := Ok (PDict [("query", PStr "Who is Ada?")]) |} tt
     = (Ok reply, tt, []) /\ Standalone.status reply = 401).
Proof.
  split; [|split].
  - apply (proj1 C1_gate_before_parse_and_query
             sample_config (bound "secret123") stub (healthy "")
             (post [("Authorization", PStr "Bearer wrong")] "Q")
             [("Authorization", PStr "Bearer wrong")] warm warm []
             eq_refl eq_refl eq_refl).
    right. exists "Bearer wrong", "wrong", "secret123".
    repeat split; reflexivity.
  - exact (proj1 (proj1 (proj2 C1_gate_before_parse_and_query)
                    sample_config (bound "secret123") stub outage
                    (post [] "Q") cold
                    (Exn ServiceError "AccessDeniedException") cold
                    [SsmGetParameter (Some "/agent/api-key")] eq_refl)).
  - apply (proj2 (proj2 C1_gate_before_parse_and_query)). reflexivity.
Defined.

(** The standalone server answers a wrong bearer token with 401. *)
Lemma C4_counterexample :
  Standalone.query_endpoint "secret123" sample_agent (healthy "")
    (request_with (Some "Bearer wrong") ada_body) tt
  = (Ok invalid_token, tt, []) /\
  Standalone.status invalid_token = 401 /\
  ~ forbidden_on_mismatch.
Proof.
  split; [reflexivity|]. split; [reflexivity|].
  intros H.
  destruct (H "secret123" sample_agent (healthy "")
              (request_with (Some "Bearer wrong") ada_body) "wrong" tt
              eq_refl eq_refl eq_refl) as (reply & l & E & Hs).
  vm_compute in E. injection E as <- _. discriminate Hs.
Qed.

(** Claim C4, amended.  Serverless, for a POST after a completed bootstrap:
    an absent or empty Authorization value is answered 401 [Missing
    authentication token]; a header whose extracted token differs from the
    secret bound to [FUNCTION_API_TOKEN] is answered 403 [Invalid
    authentication token].  Standalone: an absent or empty header is
    answered 401 [Unauthorized: Missing token]; a bearer token that is
    present and differs from the secret is answered 401 [Unauthorized:
    Invalid token]. *)
Theorem C4_gate_failure_modes :
  (forall cfg names json w event hs st st1 l1,
     eq_str (method_of event) "POST" = true ->
     dict_get_default event "headers" (PDict []) = PDict hs ->
     initialize_agent cfg names w st = (Ok tt, st1, l1) ->
     truthy (authorization_of hs) = false ->
     lambda_handler cfg names json w event st
     = (Ok (error_response json 401 "Missing authentication token"), st1, l1)) /\
  (forall cfg names json w event hs st st1 l1 h t secret,
     eq_str (method_of event) "POST" = true ->
     dict_get_default event "headers" (PDict []) = PDict hs ->
     initialize_agent cfg names w st = (Ok tt, st1, l1) ->
     authorization_of hs = PStr h ->
     received_token h = Some t ->
     FUNCTION_API_TOKEN names = Some secret ->
     (t =? secret)%string = false ->
     lambda_handler cfg names json w event st
     = (Ok (error_response json 403 "Invalid authentication token"), st1, l1)) /\
  (forall API_TOKEN agent_ w request st,
     Standalone.authorization request = None \/
     Standalone.authorization request = Some "" ->
     Standalone.query_endpoint API_TOKEN agent_ w request st
     = (Ok missing_token, st, []) /\
     Standalone.status missing_token = 401) /\
  (forall API_TOKEN agent_ w request t st,
     bearer_token (Standalone.authorization request) = Some t ->
     (t =? "")%string = false ->
     (t =? API_TOKEN)%string = false ->
     Standalone.query_endpoint API_TOKEN agent_ w request st
     = (Ok invalid_token, st, []) /\
     Standalone.status invalid_token = 401).
Proof.
  split; [|split; [|split]].
  - intros cfg names json w event hs st st1 l1 Hm Hh E Hf.
    rewrite (lambda_handler_post cfg names json w event hs st st1 l1 Hm Hh E).
    rewrite (gate_outcome_missing names json _ Hf). reflexivity.
  - intros cfg names json w event hs st st1 l1 h t secret Hm Hh E Ha Ht Hs Hne.
    rewrite (lambda_handler_post cfg names json w event hs st st1 l1 Hm Hh E).
    rewrite Ha, (gate_outcome_token names json h t secret Ht Hs), Hne.
    reflexivity.
  - intros API_TOKEN agent_ w request st Ha. split; [|reflexivity].
    unfold Standalone.query_endpoint. rewrite token_required_run.
    destruct Ha as [-> | ->]; reflexivity.
  - intros API_TOKEN agent_ w request t st Hb Hne Hw. split; [|reflexivity].
    unfold Standalone.query_endpoint. rewrite token_required_run.
    rewrite Hb. simpl truthy. rewrite Hne, Hw. reflexivity.
Qed.

Lemma C4_witness :
  lambda_handler sample_config (bound "secret123") stub (healthy "")
                 (post [] "Q") warm
  = (Ok (error_response stub 401 "Missing authentication token"), warm, []) /\
  lambda_handler sample_config (bound "secret123") stub (healthy "")
                 (post [("authorization", PStr "wrong")] "Q") warm
  = (Ok (error_response stub 403 "Invalid authentication token"), warm, []) /\
  Standalone.query_endpoint "secret123" sample_agent (healthy "")
    (request_with None ada_body) tt
  = (Ok missing_token, tt, []) /\
  Standalone.query_endpoint "secret123" sample_agent (healthy "")
    (request_with (Some "Bearer wrong") ada_body) tt
  = (Ok invalid_token, tt, []).
Proof.
  destruct C4_gate_failure_modes as (H1 & H2 & H3 & H4).
  split; [|split; [|split]].
  - exact (H1 sample_config (bound "secret123") stub (healthy "")
              (post [] "Q") [] warm warm [] eq_refl eq_refl eq_refl eq_refl).
  - exact (H2 sample_config (bound "secret123") stub (healthy "")
              (post [("authorization", PStr "wrong")] "Q")
              [("authorization", PStr "wrong")] warm warm []
              "wrong" "wrong" "secret123"
              eq_refl eq_refl eq_refl eq_refl eq_refl eq_refl eq_refl).
  - exact (proj1 (H3 "secret123" sample_agent (healthy "")
                     (request_with None ada_body) tt (or_introl eq_refl))).
  - exact (proj1 (H4 "secret123" sample_agent (healthy "")
                     (request_with (Some "Bearer wrong") ada_body) "wrong" tt
                     eq_refl eq_refl eq_refl)).
Defined.

(** The standalone decorator answers the bare secret with 401. *)
Lemma C3_counterexample :
  Standalone.query_endpoint "secret123" sample_agent (healthy "")
    (request_with (Some "secret123") ada_body) tt
  = (Ok missing_token, tt, []) /\
  ~ both_forms_accepted.
Proof.
  split; [reflexivity|].
  intros H.
  specialize (H "secret123" (Standalone.query_view sample_agent (healthy ""))
                (request_with (Some "secret123") ada_body) tt
                eq_refl eq_refl (or_intror eq_refl)).
  vm_compute in H. discriminate H.
Qed.

(** Claim C3, amended.  Serverless, for a POST after a completed bootstrap,
    with [FUNCTION_API_TOKEN] bound to a secret that is not empty and has
    no whitespace: the gate lets both [Bearer <secret>] and the bare
    [<secret>] through, and the handler goes on to the dispatch.
    Standalone, with a secret that is not empty and has no space: the
    decorator lets [Bearer <secret>] through to the view, and answers the
    bare [<secret>] with 401 [Unauthorized: Missing token]. *)
Theorem C3_accepted_header_forms :
  (forall cfg names json w event hs st st1 l1 secret,
     eq_str (method_of event) "POST" = true ->
     dict_get_default event "headers" (PDict []) = PDict hs ->
     initialize_agent cfg names w st = (Ok tt, st1, l1) ->
     FUNCTION_API_TOKEN names = Some secret ->
     (secret =? "")%string = false ->
     no_space secret ->
     authorization_of hs = PStr ("Bearer " ++ secret) \/
     authorization_of hs = PStr secret ->
     auth_gate names json event st1 = (Ok None, st1, []) /\
     lambda_handler cfg names json w event st
     = after l1 (dispatch json w event st1)) /\
  (forall API_TOKEN f request st,
     (API_TOKEN =? "")%string = false ->
     no_char " " API_TOKEN ->
     Standalone.authorization request = bearer API_TOKEN ->
     Standalone.token_required API_TOKEN f request st = f request st) /\
  (forall API_TOKEN f request st,
     (API_TOKEN =? "")%string = false ->
     no_char " " API_TOKEN ->
     Standalone.authorization request = Some API_TOKEN ->
     Standalone.token_required API_TOKEN f request st
     = (Ok missing_token, st, [])).
Proof.
  split; [|split].
  - intros cfg names json w event hs st st1 l1 secret Hm Hh E Hs Hne Hns Ha.
    assert (G : gate_outcome names json (authorization_of hs) = Ok None).
    { destruct Ha as [-> | ->].
      - rewrite (gate_outcome_token names json _ secret secret
                   (received_token_bearer secret Hne Hns) Hs).
        rewrite String.eqb_refl. reflexivity.
      - rewrite (gate_outcome_token names json _ secret secret
                   (received_token_bare secret Hne Hns) Hs).
        rewrite String.eqb_refl. reflexivity. }
    split.
    + rewrite (auth_gate_run names json event hs st1 Hh), G. reflexivity.
    + rewrite (lambda_handler_post cfg names json w event hs st st1 l1 Hm Hh E).
      rewrite G. reflexivity.
  - intros API_TOKEN f request st Hne Hns Ha.
    rewrite token_required_run, Ha.
    assert (Hne' : API_TOKEN <> "") by (intros ->; discriminate Hne).
    rewrite (bearer_token_bearer API_TOKEN Hne' Hns).
    simpl truthy. rewrite Hne, String.eqb_refl. reflexivity.
  - intros API_TOKEN f request st Hne Hns Ha.
    rewrite token_required_run, Ha. unfold bearer_token.
    simpl truthy. rewrite Hne. cbv [negb].
    rewrite (no_char_not_bearer API_TOKEN Hns). reflexivity.
Qed.

Lemma C3_witness :
  lambda_handler sample_config (bound "secret123") stub (healthy "")
                 (post [("Authorization", PStr "Bearer secret123")] "Q") warm
  = dispatch stub (healthy "")
             (post [("Authorization", PStr "Bearer secret123")] "Q") warm /\
  lambda_handler sample_config (bound "secret123") stub (healthy "")
                 (post [("Authorization", PStr "secret123")] "Q") warm
  = dispatch stub (healthy "")
             (post [("Authorization", PStr "secret123")] "Q") warm /\
  Standalone.token_required "secret123"
    (Standalone.query_view sample_agent (healthy ""))
    (request_with (bearer "secret123") ada_body) tt
  = Standalone.query_view sample_agent (healthy "")
      (request_with (bearer "secret123") ada_body) tt /\
  Standalone.token_required "secret123"
    (Standalone.query_view sample_agent (healthy ""))
    (request_with (Some "secret123") ada_body) tt
  = (Ok missing_token, tt, []).
Proof.
  destruct C3_accepted_header_forms as (H1 & H2 & H3).
  split; [|split; [|split]].
  - exact (proj2 (H1 sample_config (bound "secret123") stub (healthy "")
                     (post [("Authorization", PStr "Bearer secret123")] "Q")
                     [("Authorization", PStr "Bearer secret123")]
                     warm warm [] "secret123"
                     eq_refl eq_refl eq_refl eq_refl eq_refl eq_refl
                     (or_introl eq_refl))).
  - exact (proj2 (H1 sample_config (bound "secret123") stub (healthy "")
                     (post [("Authorization", PStr "secret123")] "Q")
                     [("Authorization", PStr "secret123")]
                     warm warm [] "secret123"
                     eq_refl eq_refl eq_refl eq_refl eq_refl eq_refl
                     (or_intror eq_refl))).
  - exact (H2 "secret123" _ (request_with (bearer "secret123") ada_body) tt
              eq_refl eq_refl eq_refl).
  - exact (H3 "secret123" _ (request_with (Some "secret123") ada_body) tt
              eq_refl eq_refl eq_refl).
Defined.

(* ===================================================================== *)
(** ** The query dispatch *)
(* ===================================================================== *)

(** The standalone server forwards an empty [query] to the agent and
    answers 200; the serverless handler answers a body without [query]
    and without token 401. *)
Lemma C5_counterexample :
  Standalone.query_endpoint "secret123" sample_agent (healthy "Nothing asked.")
    (request_with (bearer "secret123") empty_body) tt
  = (Ok (Standalone.jsonify [("result", PStr "Nothing asked.")] 200), tt,
     [GetJson; AgentQuery (PStr "")]) /\
  lambda_handler sample_config (bound "secret123") stub (healthy "")
                 (post [] "{}") warm
  = (Ok (error_response stub 401 "Missing authentication token"), warm, []) /\
  ~ empty_query_rejected /\
  ~ missing_query_400_any_token.
Proof.
  split; [reflexivity|]. split; [reflexivity|]. split.
  - intros H.
    destruct (H "secret123" sample_agent (healthy "Nothing asked.")
                (request_with (bearer "secret123") empty_body)
                [("query", PStr "")] tt
                eq_refl eq_refl eq_refl (or_intror eq_refl))
      as (reply & l & E & Hs & _).
    vm_compute in E. injection E as <- _. discriminate Hs.
  - intros H.
    destruct (H sample_config (bound "secret123") stub (healthy "")
                [] "{}" [] warm eq_refl eq_refl)
      as (resp & st' & l & E & Hs).
    vm_compute in E. injection E as <- _ _. discriminate Hs.
Qed.

(** Claim C5, amended.  Serverless: for every POST after a completed
    bootstrap that passes the gate and whose body parses to an object
    where [query] is absent or has an empty (falsy) value, the answer is
    400 [Missing query parameter], and the only call after the bootstrap is
    the parsing of the body: the agent is not queried.  Standalone: for
    every request that passes the decorator and whose body is an object
    without [query], the answer is 400 [Missing query parameter] and the
    agent is not queried.  (A request that fails the gate gets the auth
    failure of C4, not 400.) *)
Theorem C5_missing_query_bad_request :
  (forall cfg names json w event hs st st1 l1 h secret raw d,
     eq_str (method_of event) "POST" = true ->
     dict_get_default event "headers" (PDict []) = PDict hs ->
     initialize_agent cfg names w st = (Ok tt, st1, l1) ->
     authorization_of hs = PStr h ->
     received_token h = Some secret ->
     FUNCTION_API_TOKEN names = Some secret ->
     dict_get_default event "body" (PStr "{}") = PStr raw ->
     loads json raw = Some (PDict d) ->
     truthy (dict_get_default d "query" PNone) = false ->
     lambda_handler cfg names json w event st
     = (Ok (error_response json 400 "Missing query parameter"), st1,
        (l1 ++ [JsonLoads (PStr raw)])%list) /\
     statusCode (error_response json 400 "Missing query parameter") = 400 /\
     no_calls query_call (l1 ++ [JsonLoads (PStr raw)])) /\
  (forall API_TOKEN agent_ w request d st,
     presents API_TOKEN (Standalone.authorization request) = true ->
     (API_TOKEN =? "")%string = false ->
     Standalone.get_json request = Ok (PDict d) ->
     dict_get d "query" = None ->
     Standalone.query_endpoint API_TOKEN agent_ w request st
     = (Ok (Standalone.jsonify [("error", PStr "Missing query parameter")] 400),
        st, [GetJson])).
Proof.
  split.
  - intros cfg names json w event hs st st1 l1 h secret raw d
           Hm Hh E Ha Ht Hs Hb Hl Hq.
    split; [|split; [reflexivity|]].
    + rewrite (lambda_handler_post cfg names json w event hs st st1 l1 Hm Hh E).
      rewrite Ha, (gate_outcome_token names json h secret secret Ht Hs).
      rewrite String.eqb_refl.
      rewrite (dispatch_missing_query json w event raw d st1 Hb Hl Hq).
      reflexivity.
    + pose proof (bootstrap_only_no_parse l1
                    (initialize_agent_calls cfg names w st _ _ _ E)) as [_ Hn].
      unfold no_calls in *. rewrite forallb_app, Hn. reflexivity.
  - intros API_TOKEN agent_ w request d st Hp Hne Hj Hq.
    unfold Standalone.query_endpoint. rewrite token_required_run.
    unfold presents in Hp.
    destruct (bearer_token (Standalone.authorization request)) as [t|];
      [|discriminate].
    apply String.eqb_eq in Hp. subst t.
    simpl truthy. rewrite Hne, String.eqb_refl. cbv [negb].
    exact (query_view_missing agent_ w request d st Hj Hq).
Qed.

Lemma C5_witness :
  lambda_handler sample_config (bound "secret123") stub (healthy "")
                 (post [("Authorization", PStr "Bearer secret123")] "{}") warm
  = (Ok (error_response stub 400 "Missing query parameter"), warm,
     [JsonLoads (PStr "{}")]) /\
  Standalone.query_endpoint "secret123" sample_agent (healthy "")
    (request_with (bearer "secret123") (PDict [])) tt
  = (Ok (Standalone.jsonify [("error", PStr "Missing query parameter")] 400),
     tt, [GetJson]).
Proof.
  destruct C5_missing_query_bad_request as (H1 & H2).
  split.
  - exact (proj1 (H1 sample_config (bound "secret123") stub (healthy "")
                     (post [("Authorization", PStr "Bearer secret123")] "{}")
                     [("Authorization", PStr "Bearer secret123")]
                     warm warm [] "Bearer secret123" "secret123" "{}" []
                     eq_refl eq_refl eq_refl eq_refl eq_refl eq_refl
                     eq_refl eq_refl eq_refl)).
  - exact (H2 "secret123" sample_agent (healthy "")
              (request_with (bearer "secret123") (PDict [])) [] tt
              eq_refl eq_refl eq_refl eq_refl).
Defined.

(** The standalone server answers the bare secret with 401 although the
    query is there and the agent would return the text. *)
Lemma C2_counterexample :
  agent_query (healthy "Ada was a mathematician.") sample_agent (PStr "Who is Ada?")
  = Ok {| response_attr := Some (PStr "Ada was a mathematician.");
          str_form := "Ada was a mathematician." |} /\
  Standalone.query_endpoint "secret123" sample_agent
    (healthy "Ada was a mathematician.")
    (request_with (Some "secret123") ada_body) tt
  = (Ok missing_token, tt, []) /\
  Standalone.status missing_token = 401 /\
  ~ correct_token_answered.
Proof.
  split; [reflexivity|]. split; [reflexivity|]. split; [reflexivity|].
  intros H.
  destruct (H "secret123" sample_agent (healthy "Ada was a mathematician.")
              (request_with (Some "secret123") ada_body)
              [("query", PStr "Who is Ada?")] (PStr "Who is Ada?")
              {| response_attr := Some (PStr "Ada was a mathematician.");
                 str_form := "Ada was a mathematician." |}
              "Ada was a mathematician." tt
              eq_refl eq_refl (or_intror eq_refl) eq_refl eq_refl eq_refl
              eq_refl eq_refl) as (reply & l & E & Hs & _).
  vm_compute in E. injection E as <- _. discriminate Hs.
Qed.

(** Claim C2, amended.  For every request whose extracted token is the
    secret and that carries a non-empty [query], when the agent's [query]
    returns text [T], the answer is 200 with a success envelope whose
    [result] is [T] itself.  Serverless (POST, bootstrap completed): the
    extracted token is the last whitespace-separated part of the
    Authorization value, which covers [Bearer <secret>] and the bare
    [<secret>]; the body is [json.dumps] of [{result: T, status: success}],
    and [T] is the [response] attribute of a structured answer or the
    string form of a plain one.  Standalone: the extracted token is the
    text after [Bearer ] up to the next space, which covers
    [Bearer <secret>] and not the bare [<secret>]; the payload is
    [{result: T}] with [T] the string form of the answer. *)
Theorem C2_success_envelope :
  (forall cfg names json w event hs st st1 l1 h secret raw d q a r T,
     eq_str (method_of event) "POST" = true ->
     dict_get_default event "headers" (PDict []) = PDict hs ->
     initialize_agent cfg names w st = (Ok tt, st1, l1) ->
     authorization_of hs = PStr h ->
     received_token h = Some secret ->
     FUNCTION_API_TOKEN names = Some secret ->
     dict_get_default event "body" (PStr "{}") = PStr raw ->
     loads json raw = Some (PDict d) ->
     dict_get d "query" = Some q ->
     truthy q = true ->
     agent st1 = Some a ->
     agent_query w a q = Ok r ->
     answers_text r T ->
     lambda_handler cfg names json w event st
     = (Ok {| statusCode := 200;
              headers := [("Content-Type", "application/json");
                          ("Access-Control-Allow-Origin", "*")];
              body := dumps json (PDict [("result", PStr T);
                                         ("status", PStr "success")]) |},
        st1, (l1 ++ [JsonLoads (PStr raw); AgentQuery q])%list)) /\
  (forall API_TOKEN agent_ w request d q r T st,
     presents API_TOKEN (Standalone.authorization request) = true ->
     (API_TOKEN =? "")%string = false ->
     Standalone.get_json request = Ok (PDict d) ->
     dict_get d "query" = Some q ->
     truthy q = true ->
     agent_query w agent_ q = Ok r ->
     str_form r = T ->
     Standalone.query_endpoint API_TOKEN agent_ w request st
     = (Ok {| Standalone.payload := PDict [("result", PStr T)];
              Standalone.status := 200 |},
        st, [GetJson; AgentQuery q])).
Proof.
  split.
  - intros cfg names json w event hs st st1 l1 h secret raw d q a r T
           Hm Hh E Ha Ht Hs Hb Hl Hq Htr Hag Hr HT.
    rewrite (lambda_handler_post cfg names json w event hs st st1 l1 Hm Hh E).
    rewrite Ha, (gate_outcome_token names json h secret secret Ht Hs).
    rewrite String.eqb_refl.
    assert (Hq' : dict_get_default d "query" PNone = q)
      by (unfold dict_get_default; rewrite Hq; reflexivity).
    rewrite (dispatch_answer json w event raw d q a r st1 Hb Hl Hq' Htr Hag Hr).
    unfold after, success_response, result_of.
    destruct HT as [-> | [-> ->]]; reflexivity.
  - intros API_TOKEN agent_ w request d q r T st Hp Hne Hj Hq _ Hr HT.
    unfold Standalone.query_endpoint. rewrite token_required_run.
    unfold presents in Hp.
    destruct (bearer_token (Standalone.authorization request)) as [t|];
      [|discriminate].
    apply String.eqb_eq in Hp. subst t.
    simpl truthy. rewrite Hne, String.eqb_refl. cbv [negb].
    rewrite (query_view_answer agent_ w request d q r st Hj Hq Hr).
    rewrite HT. reflexivity.
Qed.

(** The scenario of the specification: token [secret123], query
    [Who is Ada?], the agent returns [Ada was a mathematician.] *)
Lemma C2_witness :
  lambda_handler sample_config (bound "secret123") stub
                 (healthy "Ada was a mathematician.")
                 (post [("Authorization", PStr "Bearer secret123")] "Q") warm
  = (Ok {| statusCode := 200;
           headers := [("Content-Type", "application/json");
                       ("Access-Control-Allow-Origin", "*")];
           body := dumps stub (PDict [("result", PStr "Ada was a mathematician.");
                                      ("status", PStr "success")]) |},
     warm, [JsonLoads (PStr "Q"); AgentQuery (PStr "Who is Ada?")]) /\
  Standalone.query_endpoint "secret123" sample_agent
    (healthy "Ada was a mathematician.")
    (request_with (bearer "secret123") ada_body) tt
  = (Ok {| Standalone.payload := PDict [("result", PStr "Ada was a mathematician.")];
           Standalone.status := 200 |},
     tt, [GetJson; AgentQuery (PStr "Who is Ada?")]).
Proof.
  destruct C2_success_envelope as (H1 & H2).
  split.
  - exact (H1 sample_config (bound "secret123") stub
              (healthy "Ada was a mathematician.")
              (post [("Authorization", PStr "Bearer secret123")] "Q")
              [("Authorization", PStr "Bearer secret123")]
              warm warm [] "Bearer secret123" "secret123" "Q"
              [("query", PStr "Who is Ada?")] (PStr "Who is Ada?")
              sample_agent
              {| response_attr := Some (PStr "Ada was a mathematician.");
                 str_form := "Ada was a mathematician." |}
              "Ada was a mathematician."
              eq_refl eq_refl eq_refl eq_refl eq_refl eq_refl eq_refl
              eq_refl eq_refl eq_refl eq_refl eq_refl (or_introl eq_refl)).
  - exact (H2 "secret123" sample_agent (healthy "Ada was a mathematician.")
              (request_with (bearer "secret123") ada_body)
              [("query", PStr "Who is Ada?")] (PStr "Who is Ada?")
              {| response_attr := Some (PStr "Ada was a mathematician.");
                 str_form := "Ada was a mathematician." |}
              "Ada was a mathematician." tt
              eq_refl eq_refl eq_refl eq_refl eq_refl eq_refl eq_refl).
Defined.

(** Claim C6.  For every request that passes the gate and carries a
    non-empty [query], if the agent's [query] raises an exception [e], the
    handler returns (it does not raise) a failure envelope with status 500
    that carries [str(e)].  Serverless: the body is [json.dumps] of
    [{error: str(e), status: error}].  Standalone: the payload is
    [{error: str(e)}]. *)
Theorem C6_agent_exception_caught :
  (forall cfg names json w event hs st st1 l1 h secret raw d q a e,
     eq_str (method_of event) "POST" = true ->
     dict_get_default event "headers" (PDict []) = PDict hs ->
     initialize_agent cfg names w st = (Ok tt, st1, l1) ->
     authorization_of hs = PStr h ->
     received_token h = Some secret ->
     FUNCTION_API_TOKEN names = Some secret ->
     dict_get_default event "body" (PStr "{}") = PStr raw ->
     loads json raw = Some (PDict d) ->
     dict_get d "query" = Some q ->
     truthy q = true ->
     agent st1 = Some a ->
     agent_query w a q = Raise e ->
     lambda_handler cfg names json w event st
     = (Ok {| statusCode := 500;
              headers := [("Content-Type", "application/json");
                          ("Access-Control-Allow-Origin", "*")];
              body := dumps json (PDict [("error", PStr (exn_str e));
                                         ("status", PStr "error")]) |},
        st1, (l1 ++ [JsonLoads (PStr raw); AgentQuery q])%list)) /\
  (forall API_TOKEN agent_ w request d q e st,
     presents API_TOKEN (Standalone.authorization request) = true ->
     (API_TOKEN =? "")%string = false ->
     Standalone.get_json request = Ok (PDict d) ->
     dict_get d "query" = Some q ->
     agent_query w agent_ q = Raise e ->
     Standalone.query_endpoint API_TOKEN agent_ w request st
     = (Ok {| Standalone.payload := PDict [("error", PStr (exn_str e))];
              Standalone.status := 500 |},
        st, [GetJson; AgentQuery q])).
Proof.
  split.
  - intros cfg names json w event hs st st1 l1 h secret raw d q a e
           Hm Hh E Ha Ht Hs Hb Hl Hq Htr Hag Hr.
    rewrite (lambda_handler_post cfg names json w event hs st st1 l1 Hm Hh E).
    rewrite Ha, (gate_outcome_token names json h secret secret Ht Hs).
    rewrite String.eqb_refl.
    assert (Hq' : dict_get_default d "query" PNone = q)
      by (unfold dict_get_default; rewrite Hq; reflexivity).
    rewrite (dispatch_agent_raises json w event raw d q a e st1
               Hb Hl Hq' Htr Hag Hr).
    reflexivity.
  - intros API_TOKEN agent_ w request d q e st Hp Hne Hj Hq Hr.
    unfold Standalone.query_endpoint. rewrite token_required_run.
    unfold presents in Hp.
    destruct (bearer_token (Standalone.authorization request)) as [t|];
      [|discriminate].
    apply String.eqb_eq in Hp. subst t.
    simpl truthy. rewrite Hne, String.eqb_refl. cbv [negb].
    exact (query_view_agent_raises agent_ w request d q e st Hj Hq Hr).
Qed.

Lemma C6_witness :
  lambda_handler sample_config (bound "secret123") stub
                 (broken_agent "rate limit exceeded")
                 (post [("Authorization", PStr "secret123")] "Q") warm
  = (Ok {| statusCode := 500;
           headers := [("Content-Type", "application/json");
                       ("Access-Control-Allow-Origin", "*")];
           body := dumps stub (PDict [("error", PStr "rate limit exceeded");
                                      ("status", PStr "error")]) |},
     warm, [JsonLoads (PStr "Q"); AgentQuery (PStr "Who is Ada?")]) /\
  Standalone.query_endpoint "secret123" sample_agent
    (broken_agent "rate limit exceeded")
    (request_with (bearer "secret123") ada_body) tt
  = (Ok {| Standalone.payload := PDict [("error", PStr "rate limit exceeded")];
           Standalone.status := 500 |},
     tt, [GetJson; AgentQuery (PStr "Who is Ada?")]).
Proof.
  destruct C6_agent_exception_caught as (H1 & H2).
  split.
  - exact (H1 sample_config (bound "secret123") stub
              (broken_agent "rate limit exceeded")
              (post [("Authorization", PStr "secret123")] "Q")
              [("Authorization", PStr "secret123")]
              warm warm [] "secret123" "secret123" "Q"
              [("query", PStr "Who is Ada?")] (PStr "Who is Ada?")
              sample_agent (Exn ServiceError "rate limit exceeded")
              eq_refl eq_refl eq_refl eq_refl eq_refl eq_refl eq_refl
              eq_refl eq_refl eq_refl eq_refl eq_refl).
  - exact (H2 "secret123" sample_agent (broken_agent "rate limit exceeded")
              (request_with (bearer "secret123") ada_body)
              [("query", PStr "Who is Ada?")] (PStr "Who is Ada?")
              (Exn ServiceError "rate limit exceeded") tt
              eq_refl eq_refl eq_refl eq_refl eq_refl).
Defined.

(* ===================================================================== *)
(** ** Every run of the handlers *)
(* ===================================================================== *)

Lemma auth_gate_total names json event st :
  auth_gate names json event st = (gate_of_event names json event, st, []).
Proof.
  unfold gate_of_event.
  destruct (dict_get_default event "headers" (PDict [])) as [| | | | |hs] eqn:Hh;
    try (unfold auth_gate; rewrite Hh; reflexivity).
  exact (auth_gate_run names json event hs st Hh).
Qed.

Lemma dispatch_run json w event st :
  dispatch json w event st
  = (fst (dispatch_outcome json w event st), st,
     snd (dispatch_outcome json w event st)).
Proof.
  unfold dispatch, dispatch_outcome, json_loads, Serverless.run_query, call.
  destruct (dict_get_default event "body" (PStr "{}")) as [| | |raw| |];
    try reflexivity.
  cbn. destruct (loads json raw) as [b|].
  2: { destruct (loads_raises json raw) as [e|]; [|reflexivity].
       unfold is_decode_error. destruct e as [k m].
       destruct k; reflexivity. }
  destruct b as [| | | | |d]; try reflexivity.
  cbn. destruct (truthy (dict_get_default d "query" PNone)); [|reflexivity].
  cbn. unfold m_catch, m_bind, m_ret, m_raise. cbn.
  destruct (agent st) as [a|]; [|reflexivity].
  destruct (agent_query w a (dict_get_default d "query" PNone)); reflexivity.
Qed.

Lemma routed_run names json w event st :
  routed names json w event st
  = (fst (routed_outcome names json w event st), st,
     snd (routed_outcome names json w event st)).
Proof.
  unfold routed, routed_outcome, method_of.
  destruct (eq_str (dict_get_default event "httpMethod" PNone) "OPTIONS");
    [reflexivity|].
  destruct (eq_str (dict_get_default event "httpMethod" PNone) "POST");
    [|reflexivity].
  cbn [negb bind Monad_M]. unfold m_bind.
  rewrite auth_gate_total.
  destruct (gate_of_event names json event) as [[r|]|e]; try reflexivity.
  rewrite dispatch_run. reflexivity.
Qed.

(** The whole handler: the bootstrap, then the routing on the module the
    bootstrap left. *)
Lemma lambda_handler_run cfg names json w event st :
  lambda_handler cfg names json w event st
  = match initialize_agent cfg names w st with
    | (Ok _, st1, l1) =>
        (fst (routed_outcome names json w event st1), st1,
         (l1 ++ snd (routed_outcome names json w event st1))%list)
    | (Raise _, st1, l1) => (Ok (init_failed json), st1, l1)
    end.
Proof.
  destruct (initialize_agent cfg names w st) as [[[[]|e] st1] l1] eqn:E.
  - rewrite (lambda_handler_init_ok cfg names json w event st st1 l1 E).
    rewrite routed_run. reflexivity.
  - exact (lambda_handler_init_raise cfg names json w event st e st1 l1 E).
Qed.

Lemma query_view_run agent_ w request st :
  Standalone.query_view agent_ w request st
  = (fst (view_outcome agent_ w request), st, snd (view_outcome agent_ w request)).
Proof.
  unfold Standalone.query_view, view_outcome, Standalone.run_query, call.
  destruct (Standalone.get_json request) as [data|e]; [|reflexivity].
  cbn. unfold m_bind, m_ret, m_catch, m_raise.
  destruct data as [|b|z|s|l|d]; cbn.
  - reflexivity.
  - destruct b; reflexivity.
  - destruct (z =? 0); reflexivity.
  - destruct (s =? "")%string; cbn; [reflexivity|].
    destruct (str_contains "query" s); reflexivity.
  - destruct l as [|x l]; cbn; [reflexivity|].
    destruct (eq_str x "query" || existsb (fun x0 => eq_str x0 "query") l);
      reflexivity.
  - destruct d as [|kv d]; cbn -[dict_get]; [reflexivity|].
    destruct (dict_get (kv :: d) "query") as [q|]; cbn; [|reflexivity].
    destruct (agent_query w agent_ q); reflexivity.
Qed.

(** The decorated view. *)
Lemma query_endpoint_run API_TOKEN agent_ w request st :
  Standalone.query_endpoint API_TOKEN agent_ w request st
  = match bearer_token (Standalone.authorization request) with
    | None => (Ok missing_token, st, [])
    | Some t =>
        if (t =? "")%string then (Ok missing_token, st, [])
        else if (t =? API_TOKEN)%string then
          (fst (view_outcome agent_ w request), st,
           snd (view_outcome agent_ w request))
        else (Ok invalid_token, st, [])
    end.
Proof.
  unfold Standalone.query_endpoint. rewrite token_required_run.
  destruct (bearer_token (Standalone.authorization request)) as [t|];
    [|reflexivity].
  simpl truthy. destruct (t =? "")%string; [reflexivity|].
  destruct (t =? API_TOKEN)%string; [|reflexivity].
  cbv [negb]. apply query_view_run.
Qed.

(* ===================================================================== *)
(** ** More on the token extraction *)
(* ===================================================================== *)

Lemma split_ws_cons c r :
  split_ws (String c r)
  = if is_space c then split_ws r
    else match r with
         | EmptyString => [String c EmptyString]
         | String c' _ =>
             if is_space c' then String c EmptyString :: split_ws r
             else match split_ws r with
                  | w :: ws => String c w :: ws
                  | [] => [String c EmptyString]
                  end
         end.
Proof. reflexivity. Qed.

Lemma split_ws_app_space p sp t :
  is_space sp = true ->
  split_ws (p ++ String sp t) = (split_ws p ++ split_ws t)%list.
Proof.
  intros Hsp. induction p as [|c r IH].
  - simpl. rewrite Hsp. reflexivity.
  - change (String c r ++ String sp t) with (String c (r ++ String sp t)).
    rewrite (split_ws_cons c (r ++ String sp t)), (split_ws_cons c r).
    destruct (is_space c) eqn:Hc; [exact IH|].
    destruct r as [|c' r'].
    + change ("" ++ String sp t) with (String sp t). cbv beta iota.
      rewrite Hsp, (split_ws_cons sp t), Hsp. reflexivity.
    + change (String c' r' ++ String sp t)
        with (String c' (r' ++ String sp t)) in *. cbv beta iota.
      destruct (is_space c') eqn:Hc'.
      * rewrite IH. reflexivity.
      * rewrite IH.
        pose proof (split_ws_cons_nonspace c' r' Hc') as Hne.
        destruct (split_ws (String c' r')) as [|w0 ws0]; [congruence|].
        reflexivity.
Qed.

(** No part of [s.split()] is empty or holds a whitespace character. *)
Lemma split_ws_parts s :
  Forall (fun t => t <> "" /\ has_space t = false) (split_ws s).
Proof.
  induction s as [|c r IH]; [constructor|].
  simpl. destruct (is_space c) eqn:Hc; [exact IH|].
  assert (H1 : String c "" <> "" /\ has_space (String c "") = false).
  { split; [discriminate|]. unfold has_space. simpl. rewrite Hc. reflexivity. }
  destruct r as [|c' r']; [constructor; [exact H1 | constructor]|].
  destruct (is_space c') eqn:Hc'; [constructor; [exact H1 | exact IH]|].
  destruct (split_ws (String c' r')) as [|w0 ws0];
    [constructor; [exact H1 | constructor]|].
  inversion IH as [|x l [Hx1 Hx2] Hl]; subst.
  constructor; [|exact Hl].
  split; [discriminate|].
  unfold has_space in *. simpl. rewrite Hc. exact Hx2.
Qed.

Lemma last_In (x : string) l d : In (last (x :: l) d) (x :: l).
Proof.
  revert x. induction l as [|y l IH]; intros x; [left; reflexivity|].
  right. change (last (x :: y :: l) d) with (last (y :: l) d). apply IH.
Qed.

Lemma received_token_part h t :
  received_token h = Some t -> t <> "" /\ has_space t = false.
Proof.
  unfold received_token. pose proof (split_ws_parts h) as H.
  destruct (split_ws h) as [|p ps]; [discriminate|].
  intros E. injection E as <-.
  rewrite Forall_forall in H. apply H.
  destruct ps as [|q ps']; [left; reflexivity|].
  right. apply last_In.
Qed.

(* ===================================================================== *)
(** ** The request body of the serverless handler *)
(* ===================================================================== *)

(** A POST that passed the gate: the answer is that of the dispatch. *)
Lemma lambda_handler_dispatch cfg names json w event st st1 l1 :
  eq_str (method_of event) "POST" = true ->
  initialize_agent cfg names w st = (Ok tt, st1, l1) ->
  auth_gate names json event st1 = (Ok None, st1, []) ->
  lambda_handler cfg names json w event st
  = (fst (dispatch_outcome json w event st1), st1,
     (l1 ++ snd (dispatch_outcome json w event st1))%list).
Proof.
  intros Hm E Hg. rewrite lambda_handler_run, E.
  rewrite auth_gate_total in Hg. injection Hg as Hg.
  unfold routed_outcome. rewrite (post_not_options event Hm), Hm, Hg.
  reflexivity.
Qed.

(** Property X1.  A POST that passed the gate and on whose body text
    [json.loads] raises [JSONDecodeError] is answered 400 [Invalid JSON in
    request body]; the agent is not queried.  When [json.loads] raises
    another exception on the text (the [RecursionError] of a text nested
    too deep, the [ValueError] of an integer with too many digits), the
    [except json.JSONDecodeError] clause does not catch it and the handler
    raises it. *)
Theorem X1_invalid_json_bad_request :
  forall cfg names json w event st st1 l1 raw,
    eq_str (method_of event) "POST" = true ->
    initialize_agent cfg names w st = (Ok tt, st1, l1) ->
    auth_gate names json event st1 = (Ok None, st1, []) ->
    dict_get_default event "body" (PStr "{}") = PStr raw ->
    loads json raw = None ->
    (loads_raises json raw = None ->
     lambda_handler cfg names json w event st
     = (Ok (error_response json 400 "Invalid JSON in request body"), st1,
        (l1 ++ [JsonLoads (PStr raw)])%list)) /\
    (forall e,
       loads_raises json raw = Some e ->
       is_decode_error e = false ->
       lambda_handler cfg names json w event st
       = (Raise e, st1, (l1 ++ [JsonLoads (PStr raw)])%list)).
Proof.
  intros cfg names json w event st st1 l1 raw Hm E Hg Hb Hl.
  rewrite (lambda_handler_dispatch cfg names json w event st st1 l1 Hm E Hg).
  unfold dispatch_outcome. rewrite Hb, Hl. split.
  - intros Hr. rewrite Hr. reflexivity.
  - intros e Hr He. rewrite Hr, He. reflexivity.
Qed.

Lemma X1_witness :
  lambda_handler sample_config (bound "secret123") stub (healthy "")
                 (post [("Authorization", PStr "Bearer secret123")] "{query:") warm
  = (Ok (error_response stub 400 "Invalid JSON in request body"), warm,
     [JsonLoads (PStr "{query:")]) /\
  lambda_handler sample_config (bound "secret123") deep_json (healthy "")
                 (post [("Authorization", PStr "Bearer secret123")] "[[[[") warm
  = (Raise (Exn RecursionError
                "maximum recursion depth exceeded while decoding a JSON array from a unicode string"),
     warm, [JsonLoads (PStr "[[[[")]).
Proof.
  split.
  - exact (proj1 (X1_invalid_json_bad_request
                    sample_config (bound "secret123") stub (healthy "")
                    (post [("Authorization", PStr "Bearer secret123")] "{query:")
                    warm warm [] "{query:" eq_refl eq_refl eq_refl eq_refl eq_refl)
                 eq_refl).
  - exact (proj2 (X1_invalid_json_bad_request
                    sample_config (bound "secret123") deep_json (healthy "")
                    (post [("Authorization", PStr "Bearer secret123")] "[[[[")
                    warm warm [] "[[[[" eq_refl eq_refl eq_refl eq_refl eq_refl)
                 _ eq_refl eq_refl).
Defined.

(** Property X2.  A POST that passed the gate and whose [body] entry is
    present but is not a string (null, as for a request without body) is
    not answered: [json.loads] raises [TypeError], which the
    [except json.JSONDecodeError] clause does not catch, and the handler
    raises. *)
Theorem X2_null_body_type_error :
  forall cfg names json w event st st1 l1 v,
    eq_str (method_of event) "POST" = true ->
    initialize_agent cfg names w st = (Ok tt, st1, l1) ->
    auth_gate names json event st1 = (Ok None, st1, []) ->
    dict_get_default event "body" (PStr "{}") = v ->
    is_str v = false ->
    lambda_handler cfg names json w event st
    = (Raise (Exn TypeError
                  ("the JSON object must be str, bytes or bytearray, not "
                   ++ type_name v)),
       st1, (l1 ++ [JsonLoads v])%list).
Proof.
  intros cfg names json w event st st1 l1 v Hm E Hg Hb Hs.
  rewrite (lambda_handler_dispatch cfg names json w event st st1 l1 Hm E Hg).
  unfold dispatch_outcome. rewrite Hb.
  destruct v; try discriminate Hs; reflexivity.
Qed.

Lemma X2_witness :
  lambda_handler sample_config (bound "secret123") stub (healthy "")
                 null_body_request warm
  = (Raise (Exn TypeError
                "the JSON object must be str, bytes or bytearray, not NoneType"),
     warm, [JsonLoads PNone]).
Proof.
  exact (X2_null_body_type_error
           sample_config (bound "secret123") stub (healthy "")
           null_body_request warm warm [] PNone
           eq_refl eq_refl eq_refl eq_refl eq_refl).
Defined.

(** Property X3.  A POST that passed the gate and whose event has no [body]
    entry is handled as the empty object: the handler parses the default
    text and answers 400 [Missing query parameter]. *)
Theorem X3_absent_body_missing_query :
  forall cfg names json w event st st1 l1,
    eq_str (method_of event) "POST" = true ->
    initialize_agent cfg names w st = (Ok tt, st1, l1) ->
    auth_gate names json event st1 = (Ok None, st1, []) ->
    dict_get event "body" = None ->
    loads json "{}" = Some (PDict []) ->
    lambda_handler cfg names json w event st
    = (Ok (error_response json 400 "Missing query parameter"), st1,
       (l1 ++ [JsonLoads (PStr "{}")])%list).
Proof.
  intros cfg names json w event st st1 l1 Hm E Hg Hb Hl.
  rewrite (lambda_handler_dispatch cfg names json w event st st1 l1 Hm E Hg).
  unfold dispatch_outcome, dict_get_default. rewrite Hb, Hl. reflexivity.
Qed.

Lemma X3_witness :
  lambda_handler sample_config (bound "secret123") stub (healthy "")
                 no_body_request warm
  = (Ok (error_response stub 400 "Missing query parameter"), warm,
     [JsonLoads (PStr "{}")]).
Proof.
  exact (X3_absent_body_missing_query
           sample_config (bound "secret123") stub (healthy "")
           no_body_request warm warm []
           eq_refl eq_refl eq_refl eq_refl eq_refl).
Defined.

(** Property X4.  A POST that passed the gate and whose body is valid JSON
    but not an object (an array, a string, a number, null) is not
    answered: [body.get] raises [AttributeError] outside every [try], and
    the handler raises without querying the agent. *)
Theorem X4_non_object_body_attribute_error :
  forall cfg names json w event st st1 l1 raw b,
    eq_str (method_of event) "POST" = true ->
    initialize_agent cfg names w st = (Ok tt, st1, l1) ->
    auth_gate names json event st1 = (Ok None, st1, []) ->
    dict_get_default event "body" (PStr "{}") = PStr raw ->
    loads json raw = Some b ->
    is_dict b = false ->
    lambda_handler cfg names json w event st
    = (Raise (attribute_error b "get"), st1, (l1 ++ [JsonLoads (PStr raw)])%list).
Proof.
  intros cfg names json w event st st1 l1 raw b Hm E Hg Hb Hl Hd.
  rewrite (lambda_handler_dispatch cfg names json w event st st1 l1 Hm E Hg).
  unfold dispatch_outcome. rewrite Hb, Hl.
  destruct b; try discriminate Hd; reflexivity.
Qed.

Lemma X4_witness :
  lambda_handler sample_config (bound "secret123") array_json (healthy "")
                 (post [("Authorization", PStr "Bearer secret123")] "[1, 2]") warm
  = (Raise (Exn AttributeError "'list' object has no attribute 'get'"),
     warm, [JsonLoads (PStr "[1, 2]")]).
Proof.
  exact (X4_non_object_body_attribute_error
           sample_config (bound "secret123") array_json (healthy "")
           (post [("Authorization", PStr "Bearer secret123")] "[1, 2]")
           warm warm [] "[1, 2]" (PList [PInt 1; PInt 2])
           eq_refl eq_refl eq_refl eq_refl eq_refl eq_refl).
Defined.

(** Property X5.  A POST, after a completed bootstrap, whose [headers]
    entry is present but is not an object (null, as in an event without
    headers) is not answered 401: [headers.get] raises [AttributeError]
    outside every [try], and the handler raises. *)
Theorem X5_null_headers_attribute_error :
  forall cfg names json w event st st1 l1 v,
    eq_str (method_of event) "POST" = true ->
    initialize_agent cfg names w st = (Ok tt, st1, l1) ->
    dict_get_default event "headers" (PDict []) = v ->
    is_dict v = false ->
    lambda_handler cfg names json w event st
    = (Raise (attribute_error v "get"), st1, l1).
Proof.
  intros cfg names json w event st st1 l1 v Hm E Hh Hd.
  rewrite lambda_handler_run, E.
  unfold routed_outcome, gate_of_event.
  rewrite (post_not_options event Hm), Hm, Hh.
  destruct v; try discriminate Hd; cbn; rewrite app_nil_r; reflexivity.
Qed.

Lemma X5_witness :
  lambda_handler sample_config (bound "secret123") stub (healthy "")
                 null_headers_request warm
  = (Raise (Exn AttributeError "'NoneType' object has no attribute 'get'"),
     warm, []).
Proof.
  exact (X5_null_headers_attribute_error
           sample_config (bound "secret123") stub (healthy "")
           null_headers_request warm warm [] PNone
           eq_refl eq_refl eq_refl eq_refl).
Defined.

(* ===================================================================== *)
(** ** What the serverless gate compares *)
(* ===================================================================== *)

Lemma received_token_after_space p sp secret :
  is_space sp = true ->
  (secret =? "")%string = false -> no_space secret ->
  received_token (p ++ String sp secret) = Some secret.
Proof.
  intros Hsp Hne Hns. unfold received_token.
  rewrite (split_ws_app_space p sp secret Hsp).
  rewrite (split_ws_single secret Hns) by (intros ->; discriminate Hne).
  destruct (split_ws p) as [|x l]; [reflexivity|].
  cbn [app]. rewrite last_last. reflexivity.
Qed.

(** Property X6.  The serverless gate does not look at the scheme: it
    compares the last whitespace-separated part of the header only.  With
    a secret that is not empty and has no whitespace, every header that
    ends in a whitespace character followed by the secret passes the gate,
    whatever comes before. *)
Theorem X6_any_scheme_accepted :
  forall names json event hs st p sp secret,
    dict_get_default event "headers" (PDict []) = PDict hs ->
    authorization_of hs = PStr (p ++ String sp secret) ->
    is_space sp = true ->
    FUNCTION_API_TOKEN names = Some secret ->
    (secret =? "")%string = false ->
    no_space secret ->
    auth_gate names json event st = (Ok None, st, []).
Proof.
  intros names json event hs st p sp secret Hh Ha Hsp Hs Hne Hns.
  rewrite (auth_gate_run names json event hs st Hh), Ha.
  rewrite (gate_outcome_token names json _ secret secret
             (received_token_after_space p sp secret Hsp Hne Hns) Hs).
  rewrite String.eqb_refl. reflexivity.
Qed.

Lemma X6_witness :
  auth_gate (bound "secret123") stub
            (post [("Authorization", PStr "Basic dXNlcg== secret123")] "Q") warm
  = (Ok None, warm, []).
Proof.
  exact (X6_any_scheme_accepted
           (bound "secret123") stub
           (post [("Authorization", PStr "Basic dXNlcg== secret123")] "Q")
           [("Authorization", PStr "Basic dXNlcg== secret123")] warm
           "Basic dXNlcg==" " " "secret123"
           eq_refl eq_refl eq_refl eq_refl eq_refl eq_refl).
Defined.

(** Property X7.  A serverless secret that is empty or holds a whitespace
    character can never be presented: the token the gate extracts is
    never empty and never holds whitespace, so the gate lets no request
    through, whatever its headers. *)
Theorem X7_secret_with_whitespace_locks_out :
  forall names json event st secret r st' l,
    FUNCTION_API_TOKEN names = Some secret ->
    (secret =? "")%string = true \/ has_space secret = true ->
    auth_gate names json event st = (r, st', l) ->
    r <> Ok None.
Proof.
  intros names json event st secret r st' l Hs Hbad Hg.
  rewrite auth_gate_total in Hg. injection Hg as <- _ _.
  unfold gate_of_event.
  destruct (dict_get_default event "headers" (PDict [])); try discriminate.
  unfold gate_outcome.
  destruct (negb (truthy (authorization_of d))); [discriminate|].
  destruct (authorization_of d) as [| | |h| |]; try discriminate.
  destruct (received_token h) as [t|] eqn:Ht; [|discriminate].
  rewrite Hs. destruct (t =? secret)%string eqn:Heq; [|discriminate].
  apply String.eqb_eq in Heq. subst t.
  destruct (received_token_part h secret Ht) as [Hne Hns].
  destruct Hbad as [Hb | Hb].
  - apply String.eqb_eq in Hb. contradiction.
  - congruence.
Qed.

Lemma X7_witness :
  fst (fst (auth_gate (bound "my secret") stub
                      (post [("Authorization", PStr "Bearer my secret")] "Q") warm))
  <> Ok None.
Proof.
  exact (X7_secret_with_whitespace_locks_out
           (bound "my secret") stub
           (post [("Authorization", PStr "Bearer my secret")] "Q") warm
           "my secret" _ _ _ eq_refl (or_intror eq_refl) eq_refl).
Defined.

(* ===================================================================== *)
(** ** What every serverless invocation keeps *)
(* ===================================================================== *)

Lemma bootstrap_log_no_query l q :
  forallb bootstrap_call l = true ->
  ~ In (AgentQuery q) l /\ filter query_call l = [].
Proof.
  induction l as [|c l IH]; intros H; [split; [intros []|reflexivity]|].
  simpl in H. apply andb_true_iff in H. destruct H as [Hc Hl].
  destruct (IH Hl) as [IH1 IH2]. split.
  - intros [Hin|Hin]; [subst c; discriminate Hc | exact (IH1 Hin)].
  - destruct c; simpl in *; try discriminate; exact IH2.
Qed.

Lemma gate_outcome_rejection names json a r :
  gate_outcome names json a = Ok (Some r) ->
  (statusCode r = 401 \/ statusCode r = 403) /\ headers r = json_headers.
Proof.
  unfold gate_outcome. destruct (negb (truthy a)).
  - intros H. injection H as <-. split; [left|]; reflexivity.
  - destruct a; try discriminate.
    destruct (received_token s); [|discriminate].
    destruct (FUNCTION_API_TOKEN names); [|discriminate].
    destruct (s0 =? s1)%string; [discriminate|].
    intros H. injection H as <-. split; [right|]; reflexivity.
Qed.

(** The calls after the bootstrap: none, the parsing of the body, or the
    parsing followed by one query. *)
Lemma routed_outcome_log names json w event st :
  snd (routed_outcome names json w event st) = [] \/
  (exists v, snd (routed_outcome names json w event st) = [JsonLoads v]) \/
  (exists v q, snd (routed_outcome names json w event st)
               = [JsonLoads v; AgentQuery q]).
Proof.
  unfold routed_outcome.
  destruct (eq_str (method_of event) "OPTIONS"); [left; reflexivity|].
  destruct (negb (eq_str (method_of event) "POST")); [left; reflexivity|].
  destruct (gate_of_event names json event) as [[r|]|e];
    try (left; reflexivity).
  unfold dispatch_outcome.
  destruct (dict_get_default event "body" (PStr "{}")) as [| | |raw| |];
    try (right; left; eexists; reflexivity).
  destruct (loads json raw) as [b|].
  2: { destruct (loads_raises json raw) as [e|];
         [destruct (is_decode_error e)|]; right; left; eexists; reflexivity. }
  destruct b as [| | | | |d]; try (right; left; eexists; reflexivity).
  cbv zeta. destruct (truthy (dict_get_default d "query" PNone));
    [|right; left; eexists; reflexivity].
  destruct (agent st); [|right; left; eexists; reflexivity].
  right; right. do 2 eexists. reflexivity.
Qed.

Lemma routed_outcome_query names json w event st q :
  In (AgentQuery q) (snd (routed_outcome names json w event st)) ->
  eq_str (method_of event) "POST" = true /\
  gate_of_event names json event = Ok None /\
  (exists raw d,
     dict_get_default event "body" (PStr "{}") = PStr raw /\
     loads json raw = Some (PDict d) /\
     dict_get_default d "query" PNone = q /\ truthy q = true /\
     snd (routed_outcome names json w event st)
     = [JsonLoads (PStr raw); AgentQuery q]) /\
  (exists resp,
     fst (routed_outcome names json w event st) = Ok resp /\
     (statusCode resp = 200 \/ statusCode resp = 500)).
Proof.
  unfold routed_outcome.
  destruct (eq_str (method_of event) "OPTIONS"); [intros []|].
  destruct (eq_str (method_of event) "POST"); [|intros []].
  cbv [negb].
  destruct (gate_of_event names json event) as [[r|]|e];
    try (intros []).
  unfold dispatch_outcome.
  destruct (dict_get_default event "body" (PStr "{}")) as [| | |raw| |];
    try (intros [H|[]]; discriminate H).
  destruct (loads json raw) as [b|] eqn:Hl.
  2: { destruct (loads_raises json raw) as [e|];
         [destruct (is_decode_error e)|]; intros [H|[]]; discriminate H. }
  destruct b as [| | | | |d]; try (intros [H|[]]; discriminate H).
  cbv zeta. destruct (truthy (dict_get_default d "query" PNone)) eqn:Hq;
    [|intros [H|[]]; discriminate H].
  destruct (agent st) as [a|]; [|intros [H|[]]; discriminate H].
  intros [H|[H|[]]]; [discriminate H|]. injection H as <-.
  split; [reflexivity|]. split; [reflexivity|]. split.
  - exists raw, d. repeat split; try reflexivity; assumption.
  - destruct (agent_query w a (dict_get_default d "query" PNone));
      eexists; (split; [reflexivity|]); [left | right]; reflexivity.
Qed.

(** Property X8.  On a module whose agent is built, no invocation changes
    the module or calls the parameter store or a constructor again,
    whatever the event and whatever the services do: only
    [initialize_agent] assigns the globals, and it returns at once. *)
Theorem X8_built_agent_is_kept :
  forall cfg names json w event st a r st' l,
    agent st = Some a ->
    lambda_handler cfg names json w event st = (r, st', l) ->
    st' = st /\ no_calls bootstrap_call l.
Proof.
  intros cfg names json w event st a r st' l Ha H.
  rewrite lambda_handler_run in H.
  rewrite (initialize_agent_warm cfg names w st a Ha) in H.
  injection H as _ <- <-. split; [reflexivity|].
  cbn [app]. unfold no_calls.
  destruct (routed_outcome_log names json w event st)
    as [-> | [[v ->] | [v [q ->]]]]; reflexivity.
Qed.

Lemma X8_witness :
  snd (fst (lambda_handler sample_config as_written stub outage
                           (post [("Authorization", PStr "Bearer x")] "Q") warm))
  = warm.
Proof.
  exact (proj1 (X8_built_agent_is_kept
                  sample_config as_written stub outage
                  (post [("Authorization", PStr "Bearer x")] "Q") warm
                  sample_agent _ _ _ eq_refl eq_refl)).
Defined.

(** Property X9.  The agent is queried only for an authenticated query,
    and once: whenever the log of an invocation holds a query [q], the
    method is POST, the gate let the request through, the body parsed to
    an object whose [query] is [q] and is not empty, the log holds no
    other query, and the answer is a response with status 200 or 500. *)
Theorem X9_query_only_past_the_gate :
  forall cfg names json w event st r st' l q,
    lambda_handler cfg names json w event st = (r, st', l) ->
    In (AgentQuery q) l ->
    eq_str (method_of event) "POST" = true /\
    auth_gate names json event st' = (Ok None, st', []) /\
    (exists raw d,
       dict_get_default event "body" (PStr "{}") = PStr raw /\
       loads json raw = Some (PDict d) /\
       dict_get_default d "query" PNone = q /\ truthy q = true) /\
    filter query_call l = [AgentQuery q] /\
    (exists resp, r = Ok resp /\ (statusCode resp = 200 \/ statusCode resp = 500)).
Proof.
  intros cfg names json w event st r st' l q H Hin.
  rewrite lambda_handler_run in H.
  destruct (initialize_agent cfg names w st) as [[[[]|e] st1] l1] eqn:E.
  - injection H as <- <- <-.
    destruct (bootstrap_log_no_query l1 q
                (initialize_agent_calls cfg names w st _ _ _ E)) as [Hn Hf].
    apply in_app_or in Hin. destruct Hin as [Hin|Hin]; [contradiction|].
    destruct (routed_outcome_query names json w event st1 q Hin)
      as (Hm & Hg & (raw & d & Hb & Hl & Hq & Ht & Hlog) & (resp & Hr & Hs)).
    split; [exact Hm|]. split; [rewrite auth_gate_total, Hg; reflexivity|].
    split; [exists raw, d; repeat split; assumption|].
    split; [|exists resp; split; assumption].
    rewrite filter_app, Hf, Hlog. reflexivity.
  - injection H as <- <- <-.
    destruct (bootstrap_log_no_query l1 q
                (initialize_agent_calls cfg names w st _ _ _ E)) as [Hn _].
    contradiction.
Qed.

Lemma X9_witness :
  filter query_call
         (snd (lambda_handler sample_config (bound "secret123") stub (healthy "")
                 (post [("Authorization", PStr "Bearer secret123")] "Q") cold))
  = [AgentQuery (PStr "Who is Ada?")].
Proof.
  refine (proj1 (proj2 (proj2 (proj2
            (X9_query_only_past_the_gate
               sample_config (bound "secret123") stub (healthy "")
               (post [("Authorization", PStr "Bearer secret123")] "Q") cold
               _ _ _ (PStr "Who is Ada?") eq_refl _))))).
  vm_compute. do 12 right. left. reflexivity.
Defined.

(** Every response of the routing: 200 with the allow-origin header, a
    4xx with the content type alone, or 500. *)
Lemma routed_outcome_response names json w event st resp :
  fst (routed_outcome names json w event st) = Ok resp ->
  has_header "Content-Type" (headers resp) = true /\
  ((statusCode resp = 200 /\
    has_header "Access-Control-Allow-Origin" (headers resp) = true) \/
   ((statusCode resp = 400 \/ statusCode resp = 401 \/
     statusCode resp = 403 \/ statusCode resp = 405) /\
    headers resp = json_headers) \/
   (statusCode resp = 500 /\
    has_header "Access-Control-Allow-Origin" (headers resp) = true)).
Proof.
  unfold routed_outcome.
  destruct (eq_str (method_of event) "OPTIONS").
  { intros H. injection H as <-. split; [reflexivity|].
    left. split; reflexivity. }
  destruct (negb (eq_str (method_of event) "POST")).
  { intros H. injection H as <-. split; [reflexivity|].
    right; left. split; [|reflexivity]. tauto. }
  destruct (gate_of_event names json event) as [[r|]|e] eqn:Hg;
    [| |discriminate].
  - intros H. injection H as <-.
    unfold gate_of_event in Hg.
    destruct (dict_get_default event "headers" (PDict [])); try discriminate.
    destruct (gate_outcome_rejection names json _ r Hg) as [Hs Hh].
    split; [rewrite Hh; reflexivity|].
    right; left. split; [tauto | exact Hh].
  - unfold dispatch_outcome.
    destruct (dict_get_default event "body" (PStr "{}")) as [| | |raw| |];
      try discriminate.
    destruct (loads json raw) as [b|].
    2: { destruct (loads_raises json raw) as [e|];
           [destruct (is_decode_error e); [|discriminate]|];
           intros H; injection H as <-; (split; [reflexivity|]);
           right; left; (split; [|reflexivity]); tauto. }
    destruct b as [| | | | |d]; try discriminate.
    cbv zeta. destruct (truthy (dict_get_default d "query" PNone)).
    2: { intros H. injection H as <-. split; [reflexivity|].
         right; left. split; [|reflexivity]. tauto. }
    destruct (agent st) as [a|].
    + destruct (agent_query w a (dict_get_default d "query" PNone));
        intros H; injection H as <-; (split; [reflexivity|]);
        [left | right; right]; split; reflexivity.
    + intros H. injection H as <-. split; [reflexivity|].
      right; right. split; reflexivity.
Qed.

(** Property X10.  Whatever the event, the module and the services, a
    response of the serverless handler has one of the status codes 200,
    400, 401, 403, 405 and 500, and carries the [Content-Type] header. *)
Theorem X10_serverless_status_codes :
  forall cfg names json w event st resp st' l,
    lambda_handler cfg names json w event st = (Ok resp, st', l) ->
    serverless_status (statusCode resp) = true /\
    has_header "Content-Type" (headers resp) = true.
Proof.
  intros cfg names json w event st resp st' l H.
  rewrite lambda_handler_run in H.
  destruct (initialize_agent cfg names w st) as [[[[]|e] st1] l1].
  - injection H as Hr _ _.
    destruct (routed_outcome_response names json w event st1 resp Hr)
      as [Hc [[Hs _] | [[Hs _] | [Hs _]]]]; split; try exact Hc.
    + rewrite Hs. reflexivity.
    + destruct Hs as [-> | [-> | [-> | ->]]]; reflexivity.
    + rewrite Hs. reflexivity.
  - injection H as <- _ _. split; reflexivity.
Qed.

Lemma X10_witness :
  serverless_status
    (statusCode (error_response stub 405 "Method not allowed")) = true /\
  has_header "Content-Type"
    (headers (error_response stub 405 "Method not allowed")) = true.
Proof.
  exact (X10_serverless_status_codes
           sample_config (bound "secret123") stub (healthy "")
           get_request warm _ _ _ eq_refl).
Defined.

(** Property X11.  The error responses for a rejected request carry no CORS
    header: every response with status 400, 401, 403 or 405 has the
    [Content-Type] header alone, while every response with status 200 has
    [Access-Control-Allow-Origin]. *)
Theorem X11_no_cors_on_rejections :
  forall cfg names json w event st resp st' l,
    lambda_handler cfg names json w event st = (Ok resp, st', l) ->
    (statusCode resp = 400 \/ statusCode resp = 401 \/
     statusCode resp = 403 \/ statusCode resp = 405 ->
     headers resp = json_headers /\
     has_header "Access-Control-Allow-Origin" (headers resp) = false) /\
    (statusCode resp = 200 ->
     has_header "Access-Control-Allow-Origin" (headers resp) = true).
Proof.
  intros cfg names json w event st resp st' l H.
  rewrite lambda_handler_run in H.
  destruct (initialize_agent cfg names w st) as [[[[]|e] st1] l1].
  - injection H as Hr _ _.
    destruct (routed_outcome_response names json w event st1 resp Hr)
      as [_ [[Hs Hh] | [[Hs Hh] | [Hs Hh]]]].
    + split; [|intros _; exact Hh].
      rewrite Hs. intros [F | [F | [F | F]]]; discriminate F.
    + split; [intros _; rewrite Hh; split; reflexivity|].
      intros F. rewrite F in Hs.
      destruct Hs as [F' | [F' | [F' | F']]]; discriminate F'.
    + split; [|intros F; rewrite F in Hs; discriminate Hs].
      rewrite Hs. intros [F | [F | [F | F]]]; discriminate F.
  - injection H as <- _ _. split.
    + intros [F | [F | [F | F]]]; discriminate F.
    + intros F; discriminate F.
Qed.

Lemma X11_witness :
  headers (error_response stub 401 "Missing authentication token") = json_headers /\
  has_header "Access-Control-Allow-Origin"
    (headers (error_response stub 401 "Missing authentication token")) = false.
Proof.
  exact (proj1 (X11_no_cors_on_rejections
                  sample_config (bound "secret123") stub (healthy "")
                  (post [] "Q") warm _ _ _ eq_refl)
               (or_intror (or_introl eq_refl))).
Defined.

(* ===================================================================== *)
(** ** The stages of the bootstrap *)
(* ===================================================================== *)

(** Property X12.  On a module without agent, a failure of the parameter
    store ends the bootstrap at once with the store's own exception: when
    the API key cannot be read, the auth token is not asked for and
    nothing is stored; when the auth token cannot be read, only the API key
    has been stored.  No constructor is called in either case. *)
Theorem X12_parameter_store_failure :
  forall cfg names w st,
    agent st = None ->
    (forall e,
       ssm_get_parameter w (SSM_PARAM_API_KEY cfg) = Raise e ->
       initialize_agent cfg names w st
       = (Raise e, st, [SsmGetParameter (SSM_PARAM_API_KEY cfg)])) /\
    (forall k e,
       ssm_get_parameter w (SSM_PARAM_API_KEY cfg) = Ok k ->
       ssm_get_parameter w (SSM_PARAM_AUTH_TOKEN cfg) = Raise e ->
       initialize_agent cfg names w st
       = (Raise e, set_api_key k st,
          [SsmGetParameter (SSM_PARAM_API_KEY cfg);
           SsmGetParameter (SSM_PARAM_AUTH_TOKEN cfg)])).
Proof.
  intros cfg names w st Ha. split.
  - intros e He. unfold initialize_agent, get_api_key, call. cbn.
    rewrite Ha. cbn. rewrite He. reflexivity.
  - intros k e Hk He.
    unfold initialize_agent, get_api_key, get_auth_token, call. cbn.
    rewrite Ha. cbn. rewrite Hk. cbn. rewrite He. reflexivity.
Qed.

Lemma X12_witness :
  initialize_agent sample_config (bound "secret123") outage cold
  = (Raise (Exn ServiceError "AccessDeniedException"), cold,
     [SsmGetParameter (Some "/agent/api-key")]) /\
  initialize_agent sample_config (bound "secret123") half_store cold
  = (Raise (Exn ServiceError "ParameterNotFound"), set_api_key "sk-test" cold,
     [SsmGetParameter (Some "/agent/api-key");
      SsmGetParameter (Some "/agent/auth-token")]).
Proof.
  split.
  - exact (proj1 (X12_parameter_store_failure
                    sample_config (bound "secret123") outage cold eq_refl)
                 _ eq_refl).
  - exact (proj2 (X12_parameter_store_failure
                    sample_config (bound "secret123") half_store cold eq_refl)
                 _ _ eq_refl eq_refl).
Defined.



(** Property X14.  A bootstrap that completes on a module without agent has
    read the API key, then the auth token, then called the nine
    constructors in the order of the code, with every free name bound.
    The model clients are given the value of the name [OPENAI_API_KEY],
    not the key read from the parameter store, which is only stored and
    exported. *)
Theorem X14_completed_bootstrap :
  forall cfg names w st st' l,
    agent st = None ->
    initialize_agent cfg names w st = (Ok tt, st', l) ->
    exists k t collection embed_name key llm_name verbose,
      ssm_get_parameter w (SSM_PARAM_API_KEY cfg) = Ok k /\
      ssm_get_parameter w (SSM_PARAM_AUTH_TOKEN cfg) = Ok t /\
      CHROMA_COLLECTION_NAME names = Some collection /\
      OPENAI_EMBEDDING_MODEL_NAME names = Some embed_name /\
      OPENAI_API_KEY names = Some key /\
      OPENAI_MODEL_NAME names = Some llm_name /\
      VERBOSE names = Some verbose /\
      l = [SsmGetParameter (SSM_PARAM_API_KEY cfg);
           SsmGetParameter (SSM_PARAM_AUTH_TOKEN cfg);
           Construct (HttpClient (CHROMA_HOST cfg) (CHROMA_PORT cfg));
           Construct (get_collection collection);
           Construct ChromaVectorStore;
           Construct (OpenAIEmbedding embed_name key);
           Construct (OpenAI llm_name key);
           Construct from_vector_store;
           Construct as_query_engine;
           Construct QueryEngineTool_from_defaults;
           Construct (ReActAgent_from_tools verbose)] /\
      st' = set_agent {| tool_name := "people";
                         tool_description := "descriptions for various types of people";
                         agent_verbose := verbose |}
                      (set_environ (Some k) (set_auth_token t (set_api_key k st))).
Proof.
  intros cfg names w st st' l Ha.
  unfold initialize_agent, get_api_key, get_auth_token, call.
  cbn -[build_agent]. rewrite Ha. cbn -[build_agent].
  destruct (ssm_get_parameter w (SSM_PARAM_API_KEY cfg)) as [k|e1];
    cbn -[build_agent]; [|discriminate].
  destruct (ssm_get_parameter w (SSM_PARAM_AUTH_TOKEN cfg)) as [t|e2];
    cbn -[build_agent]; [|discriminate].
  unfold m_catch, m_raise.
  destruct (build_agent cfg names w
              (set_environ (Some k) (set_auth_token t (set_api_key k st))))
    as [[[[]|e3] s3] l3] eqn:E3; intros H; [|discriminate H].
  injection H as <- <-.
  destruct (build_agent_ok cfg names w _ _ _ E3)
    as (collection & embed_name & key & llm_name & verbose
        & H1 & H2 & H3 & H4 & H5 & -> & ->).
  exists k, t, collection, embed_name, key, llm_name, verbose.
  repeat split; assumption || reflexivity.
Qed.

Lemma X14_witness :
  exists k t collection embed_name key llm_name verbose,
    ssm_get_parameter (healthy "") (SSM_PARAM_API_KEY sample_config) = Ok k /\
    ssm_get_parameter (healthy "") (SSM_PARAM_AUTH_TOKEN sample_config) = Ok t /\
    CHROMA_COLLECTION_NAME (bound "secret123") = Some collection /\
    OPENAI_EMBEDDING_MODEL_NAME (bound "secret123") = Some embed_name /\
    OPENAI_API_KEY (bound "secret123") = Some key /\
    OPENAI_MODEL_NAME (bound "secret123") = Some llm_name /\
    VERBOSE (bound "secret123") = Some verbose /\
    snd (initialize_agent sample_config (bound "secret123") (healthy "") cold)
    = [SsmGetParameter (SSM_PARAM_API_KEY sample_config);
       SsmGetParameter (SSM_PARAM_AUTH_TOKEN sample_config);
       Construct (HttpClient (CHROMA_HOST sample_config) (CHROMA_PORT sample_config));
       Construct (get_collection collection);
       Construct ChromaVectorStore;
       Construct (OpenAIEmbedding embed_name key);
       Construct (OpenAI llm_name key);
       Construct from_vector_store;
       Construct as_query_engine;
       Construct QueryEngineTool_from_defaults;
       Construct (ReActAgent_from_tools verbose)] /\
    snd (fst (initialize_agent sample_config (bound "secret123") (healthy "") cold))
    = set_agent {| tool_name := "people";
                   tool_description := "descriptions for various types of people";
                   agent_verbose := verbose |}
                (set_environ (Some k) (set_auth_token t (set_api_key k cold))).
Proof.
  exact (X14_completed_bootstrap
           sample_config (bound "secret123") (healthy "") cold _ _
           eq_refl eq_refl).
Defined.

(* ===================================================================== *)
(** ** What the serverless handler does not read *)
(* ===================================================================== *)

Lemma routed_outcome_agent names json w event st1 st2 :
  agent st1 = agent st2 ->
  routed_outcome names json w event st1 = routed_outcome names json w event st2.
Proof.
  intros H. unfold routed_outcome, dispatch_outcome. rewrite H. reflexivity.
Qed.

(** Property X15.  The values read from the parameter store never reach
    the gate or the dispatch: on a module whose agent is built, the
    outcome and the calls of an invocation are the same whatever
    [api_key], [auth_token] and the exported variable hold.  The gate
    compares with the name [FUNCTION_API_TOKEN] only. *)
Theorem X15_fetched_token_is_not_compared :
  forall cfg names json w event st1 st2 a,
    agent st1 = Some a ->
    agent st2 = Some a ->
    fst (fst (lambda_handler cfg names json w event st1))
    = fst (fst (lambda_handler cfg names json w event st2)) /\
    snd (lambda_handler cfg names json w event st1)
    = snd (lambda_handler cfg names json w event st2).
Proof.
  intros cfg names json w event st1 st2 a H1 H2.
  rewrite !lambda_handler_run.
  rewrite (initialize_agent_warm cfg names w st1 a H1).
  rewrite (initialize_agent_warm cfg names w st2 a H2).
  rewrite (routed_outcome_agent names json w event st1 st2) by congruence.
  split; reflexivity.
Qed.

Lemma X15_witness :
  fst (fst (lambda_handler sample_config (bound "secret123") stub (healthy "")
              (post [("Authorization", PStr "another-token")] "Q") warm))
  = fst (fst (lambda_handler sample_config (bound "secret123") stub (healthy "")
                (post [("Authorization", PStr "another-token")] "Q")
                warm_other_token)).
Proof.
  exact (proj1 (X15_fetched_token_is_not_compared
                  sample_config (bound "secret123") stub (healthy "")
                  (post [("Authorization", PStr "another-token")] "Q")
                  warm warm_other_token sample_agent eq_refl eq_refl)).
Defined.

(** Property X16.  As the module text stands (none of the free names is
    bound), an invocation on a module without agent is always answered 500
    [Failed to initialize agent], whatever the event and whatever the
    services answer: the [try] body stops at the first unbound name at the
    latest.  The agent stays unset, the body is not parsed and no query is
    made. *)
Theorem X16_unbound_names_fail_every_cold_start :
  forall cfg json w event st,
    agent st = None ->
    exists st' l,
      lambda_handler cfg as_written json w event st
      = (Ok (init_failed json), st', l) /\
      statusCode (init_failed json) = 500 /\
      agent st' = None /\
      no_calls parse_call l /\ no_calls query_call l.
Proof.
  intros cfg json w event st Ha.
  destruct (as_written_never_ready cfg w st Ha) as (e & st' & l & E & Hn).
  exists st', l.
  split; [exact (lambda_handler_init_raise cfg as_written json w event st _ _ _ E)|].
  split; [reflexivity|]. split; [exact Hn|].
  exact (bootstrap_only_no_parse l
           (initialize_agent_calls cfg as_written w st _ _ _ E)).
Qed.

Lemma X16_witness :
  exists st' l,
    lambda_handler sample_config as_written stub (healthy "")
                   (post [("Authorization", PStr "Bearer secret123")] "Q") cold
    = (Ok (init_failed stub), st', l) /\
    statusCode (init_failed stub) = 500 /\
    agent st' = None /\
    no_calls parse_call l /\ no_calls query_call l.
Proof.
  exact (X16_unbound_names_fail_every_cold_start
           sample_config stub (healthy "")
           (post [("Authorization", PStr "Bearer secret123")] "Q") cold eq_refl).
Defined.

(** Property X17.  As the module text stands, the comparison of the gate
    cannot be made: on a module whose agent is built, every POST whose
    Authorization header holds a token raises [NameError] for
    [FUNCTION_API_TOKEN] outside every [try], so the handler answers
    neither 403 nor the query. *)
Theorem X17_unbound_secret_name_error :
  forall cfg json w event hs h t st a,
    agent st = Some a ->
    eq_str (method_of event) "POST" = true ->
    dict_get_default event "headers" (PDict []) = PDict hs ->
    authorization_of hs = PStr h ->
    received_token h = Some t ->
    lambda_handler cfg as_written json w event st
    = (Raise (name_error "FUNCTION_API_TOKEN"), st, []).
Proof.
  intros cfg json w event hs h t st a Ha Hm Hh Hau Ht.
  rewrite (lambda_handler_post cfg as_written json w event hs st st []
             Hm Hh (initialize_agent_warm cfg as_written w st a Ha)).
  rewrite Hau. unfold gate_outcome.
  assert (Hne : truthy (PStr h) = true).
  { simpl. destruct h; [discriminate Ht | reflexivity]. }
  rewrite Hne, Ht. reflexivity.
Qed.

Lemma X17_witness :
  lambda_handler sample_config as_written stub (healthy "")
                 (post [("Authorization", PStr "Bearer secret123")] "Q") warm
  = (Raise (Exn NameError "name 'FUNCTION_API_TOKEN' is not defined"), warm, []).
Proof.
  exact (X17_unbound_secret_name_error
           sample_config stub (healthy "")
           (post [("Authorization", PStr "Bearer secret123")] "Q")
           [("Authorization", PStr "Bearer secret123")]
           "Bearer secret123" "secret123" warm sample_agent
           eq_refl eq_refl eq_refl eq_refl eq_refl).
Defined.

(** Property X18.  [CHROMA_COLLECTION], [EMBEDDING_MODEL] and [LLM_MODEL]
    are read from the environment and never used: two configurations that
    agree on the host, the port and the two parameter names give the same
    run of the handler. *)
Theorem X18_unused_configuration :
  forall cfg1 cfg2 names json w event st,
    CHROMA_HOST cfg1 = CHROMA_HOST cfg2 ->
    CHROMA_PORT cfg1 = CHROMA_PORT cfg2 ->
    SSM_PARAM_API_KEY cfg1 = SSM_PARAM_API_KEY cfg2 ->
    SSM_PARAM_AUTH_TOKEN cfg1 = SSM_PARAM_AUTH_TOKEN cfg2 ->
    lambda_handler cfg1 names json w event st
    = lambda_handler cfg2 names json w event st.
Proof.
  intros cfg1 cfg2 names json w event st H1 H2 H3 H4.
  destruct cfg1, cfg2. simpl in H1, H2, H3, H4. subst.
  reflexivity.
Qed.

Lemma X18_witness :
  lambda_handler sample_config (bound "secret123") stub (healthy "")
                 (post [("Authorization", PStr "Bearer secret123")] "Q") cold
  = lambda_handler other_models (bound "secret123") stub (healthy "")
                   (post [("Authorization", PStr "Bearer secret123")] "Q") cold.
Proof.
  exact (X18_unused_configuration
           sample_config other_models (bound "secret123") stub (healthy "")
           (post [("Authorization", PStr "Bearer secret123")] "Q") cold
           eq_refl eq_refl eq_refl eq_refl).
Defined.

(* ===================================================================== *)
(** ** What the standalone decorator compares *)
(* ===================================================================== *)

Lemma split_on_app_sep sep t rest :
  no_char sep t ->
  split_on sep (t ++ String sep rest) = t :: split_on sep rest.
Proof.
  induction t as [|c r IH]; intros H.
  - simpl. rewrite Ascii.eqb_refl. reflexivity.
  - apply no_char_cons in H. destruct H as [Hc Hr].
    change (String c r ++ String sep rest) with (String c (r ++ String sep rest)).
    simpl. rewrite Hc, (IH Hr). reflexivity.
Qed.

(** No part of [s.split(sep)] holds the separator. *)
Lemma split_on_parts sep s :
  Forall (fun t => has_char sep t = false) (split_on sep s).
Proof.
  induction s as [|c r IH]; [repeat constructor|].
  simpl. destruct (Ascii.eqb c sep) eqn:Hc.
  - constructor; [reflexivity | exact IH].
  - destruct (split_on sep r) as [|w0 ws0];
      [repeat constructor; unfold has_char; simpl; rewrite Hc; reflexivity|].
    inversion IH as [|x l Hx Hl]; subst.
    constructor; [|exact Hl].
    unfold has_char in *. simpl. rewrite Hc. exact Hx.
Qed.

Lemma bearer_token_part a t :
  bearer_token a = Some t -> has_char " " t = false.
Proof.
  unfold bearer_token. destruct a as [h|]; [|discriminate].
  destruct (truthy (PStr h)); [|discriminate].
  destruct (startswith h "Bearer "); [|discriminate].
  intros H. apply nth_error_In in H.
  pose proof (split_on_parts " " h) as F. rewrite Forall_forall in F.
  exact (F t H).
Qed.

(** Property X19.  The standalone decorator compares the text between the
    first and the second space of a [Bearer ] header and nothing else:
    whatever follows the secret after a space is ignored and the view
    runs; and a header with two spaces after the scheme gives the empty
    token and is answered 401 [Unauthorized: Missing token], whatever
    follows. *)
Theorem X19_bearer_text_up_to_next_space :
  (forall API_TOKEN f request st rest,
     (API_TOKEN =? "")%string = false ->
     no_char " " API_TOKEN ->
     Standalone.authorization request
     = Some ("Bearer " ++ API_TOKEN ++ String " " rest) ->
     Standalone.token_required API_TOKEN f request st = f request st) /\
  (forall API_TOKEN f request st rest,
     Standalone.authorization request = Some ("Bearer " ++ String " " rest) ->
     Standalone.token_required API_TOKEN f request st
     = (Ok missing_token, st, [])).
Proof.
  split.
  - intros API_TOKEN f request st rest Hne Hns Ha.
    rewrite token_required_run, Ha. unfold bearer_token.
    change (truthy (PStr ("Bearer " ++ API_TOKEN ++ String " " rest))) with true.
    cbv iota. unfold startswith. rewrite prefix_app_true.
    rewrite split_on_bearer, (split_on_app_sep " " API_TOKEN rest Hns).
    cbn [nth_error]. simpl truthy. rewrite Hne, String.eqb_refl. reflexivity.
  - intros API_TOKEN f request st rest Ha.
    rewrite token_required_run, Ha. unfold bearer_token.
    change (truthy (PStr ("Bearer " ++ String " " rest))) with true.
    cbv iota. unfold startswith. rewrite prefix_app_true.
    rewrite split_on_bearer.
    change (split_on " " (String " " rest)) with ("" :: split_on " " rest).
    reflexivity.
Qed.

Lemma X19_witness :
  Standalone.token_required "secret123"
    (Standalone.query_view sample_agent (healthy ""))
    (request_with (Some "Bearer secret123 and more") ada_body) tt
  = Standalone.query_view sample_agent (healthy "")
      (request_with (Some "Bearer secret123 and more") ada_body) tt /\
  Standalone.token_required "secret123"
    (Standalone.query_view sample_agent (healthy ""))
    (request_with (Some "Bearer  secret123") ada_body) tt
  = (Ok missing_token, tt, []).
Proof.
  split.
  - exact (proj1 X19_bearer_text_up_to_next_space
             "secret123" _ (request_with (Some "Bearer secret123 and more") ada_body)
             tt "and more" eq_refl eq_refl eq_refl).
  - exact (proj2 X19_bearer_text_up_to_next_space
             "secret123" _ (request_with (Some "Bearer  secret123") ada_body)
             tt "secret123" eq_refl).
Defined.

(** Property X20.  A standalone secret that holds a space can never be
    presented: the extracted token never holds a space, so every request
    is answered 401 by the decorator, and the view never runs. *)
Theorem X20_secret_with_space_locks_out :
  forall API_TOKEN agent_ w request st,
    has_char " " API_TOKEN = true ->
    exists reply,
      Standalone.query_endpoint API_TOKEN agent_ w request st = (Ok reply, st, []) /\
      Standalone.status reply = 401.
Proof.
  intros API_TOKEN agent_ w request st Hsp.
  rewrite query_endpoint_run.
  destruct (bearer_token (Standalone.authorization request)) as [t|] eqn:Hb;
    [|exists missing_token; split; reflexivity].
  destruct (t =? "")%string; [exists missing_token; split; reflexivity|].
  destruct (t =? API_TOKEN)%string eqn:Heq;
    [|exists invalid_token; split; reflexivity].
  apply String.eqb_eq in Heq. subst t.
  pose proof (bearer_token_part _ _ Hb) as Hn. congruence.
Qed.

Lemma X20_witness :
  exists reply,
    Standalone.query_endpoint "my secret" sample_agent (healthy "")
      (request_with (Some "Bearer my secret") ada_body) tt
    = (Ok reply, tt, []) /\
    Standalone.status reply = 401.
Proof.
  exact (X20_secret_with_space_locks_out
           "my secret" sample_agent (healthy "")
           (request_with (Some "Bearer my secret") ada_body) tt eq_refl).
Defined.

(* ===================================================================== *)
(** ** What every standalone request keeps *)
(* ===================================================================== *)

Lemma view_outcome_query agent_ w request q :
  In (AgentQuery q) (snd (view_outcome agent_ w request)) ->
  (exists d,
     Standalone.get_json request = Ok (PDict d) /\
     dict_get d "query" = Some q) /\
  snd (view_outcome agent_ w request) = [GetJson; AgentQuery q] /\
  (exists reply,
     fst (view_outcome agent_ w request) = Ok reply /\
     (Standalone.status reply = 200 \/ Standalone.status reply = 500)).
Proof.
  unfold view_outcome.
  destruct (Standalone.get_json request) as [data|e];
    [|intros [H|[]]; discriminate H].
  destruct (negb (truthy data)); [intros [H|[]]; discriminate H|].
  destruct data as [|b|z|s|l|d]; try (intros [H|[]]; discriminate H).
  - destruct (str_contains "query" s); intros [H|[]]; discriminate H.
  - destruct (existsb (fun x => eq_str x "query") l);
      intros [H|[]]; discriminate H.
  - destruct (dict_get d "query") as [q0|] eqn:Hq;
      [|intros [H|[]]; discriminate H].
    intros [H|[H|[]]]; [discriminate H|]. injection H as <-.
    split; [exists d; split; [reflexivity | exact Hq]|].
    split; [reflexivity|].
    destruct (agent_query w agent_ q0); eexists;
      (split; [reflexivity|]); [left | right]; reflexivity.
Qed.

(** Property X21.  The standalone agent is queried only for an
    authenticated query, and once: whenever the log of a request holds a
    query [q], the bearer token of the request is the secret, the body is
    an object whose [query] is [q], the log is the body parsing followed
    by that one query, and the answer has status 200 or 500. *)
Theorem X21_standalone_query_only_past_the_decorator :
  forall API_TOKEN agent_ w request st r st' l q,
    Standalone.query_endpoint API_TOKEN agent_ w request st = (r, st', l) ->
    In (AgentQuery q) l ->
    presents API_TOKEN (Standalone.authorization request) = true /\
    (exists d,
       Standalone.get_json request = Ok (PDict d) /\
       dict_get d "query" = Some q) /\
    l = [GetJson; AgentQuery q] /\
    (exists reply,
       r = Ok reply /\
       (Standalone.status reply = 200 \/ Standalone.status reply = 500)).
Proof.
  intros API_TOKEN agent_ w request st r st' l q H Hin.
  rewrite query_endpoint_run in H. unfold presents.
  destruct (bearer_token (Standalone.authorization request)) as [t|].
  2: { injection H as _ _ <-. destruct Hin. }
  destruct (t =? "")%string.
  { injection H as _ _ <-. destruct Hin. }
  destruct (t =? API_TOKEN)%string.
  2: { injection H as _ _ <-. destruct Hin. }
  injection H as <- _ <-.
  destruct (view_outcome_query agent_ w request q Hin) as (Hd & Hl & Hr).
  repeat split; assumption.
Qed.

Lemma X21_witness :
  presents "secret123" (bearer "secret123") = true /\
  snd (Standalone.query_endpoint "secret123" sample_agent (healthy "")
         (request_with (bearer "secret123") ada_body) tt)
  = [GetJson; AgentQuery (PStr "Who is Ada?")].
Proof.
  pose proof (X21_standalone_query_only_past_the_decorator
                "secret123" sample_agent (healthy "")
                (request_with (bearer "secret123") ada_body) tt
                _ _ _ (PStr "Who is Ada?") eq_refl
                (or_intror (or_introl eq_refl))) as (H1 & _ & H3 & _).
  split; [exact H1 | exact H3].
Defined.

(** Property X22.  A request that passed the decorator and whose parsed
    body is empty in Python's sense (null, an empty object, array or
    string, zero, false) is answered 400 [Missing query parameter]; the
    agent is not queried. *)
Theorem X22_empty_body_bad_request :
  forall API_TOKEN agent_ w request data st,
    presents API_TOKEN (Standalone.authorization request) = true ->
    (API_TOKEN =? "")%string = false ->
    Standalone.get_json request = Ok data ->
    truthy data = false ->
    Standalone.query_endpoint API_TOKEN agent_ w request st
    = (Ok (Standalone.jsonify [("error", PStr "Missing query parameter")] 400),
       st, [GetJson]).
Proof.
  intros API_TOKEN agent_ w request data st Hp Hne Hj Ht.
  rewrite query_endpoint_run. unfold presents in Hp.
  destruct (bearer_token (Standalone.authorization request)) as [t|];
    [|discriminate].
  apply String.eqb_eq in Hp. subst t. rewrite Hne, String.eqb_refl.
  unfold view_outcome. rewrite Hj, Ht. reflexivity.
Qed.

Lemma X22_witness :
  Standalone.query_endpoint "secret123" sample_agent (healthy "")
    (request_with (bearer "secret123") PNone) tt
  = (Ok (Standalone.jsonify [("error", PStr "Missing query parameter")] 400),
     tt, [GetJson]).
Proof.
  exact (X22_empty_body_bad_request
           "secret123" sample_agent (healthy "")
           (request_with (bearer "secret123") PNone) PNone tt
           eq_refl eq_refl eq_refl eq_refl).
Defined.

(** Property X23.  A request that passed the decorator and whose body is
    JSON but not an object can make the view raise [TypeError] outside
    its [try]: an array that has the string [query] among its elements and
    a string that contains [query] pass the [in] test and fail at
    [data['query']]; a number other than zero and [true] fail at the [in]
    test.  The agent is not queried. *)
Theorem X23_non_object_body_type_error :
  forall API_TOKEN agent_ w request data st,
    presents API_TOKEN (Standalone.authorization request) = true ->
    (API_TOKEN =? "")%string = false ->
    Standalone.get_json request = Ok data ->
    truthy data = true ->
    match data with
    | PList l => existsb (fun x => eq_str x "query") l = true
    | PStr s => str_contains "query" s = true
    | PDict _ => False
    | _ => True
    end ->
    exists message,
      Standalone.query_endpoint API_TOKEN agent_ w request st
      = (Raise (Exn TypeError message), st, [GetJson]).
Proof.
  intros API_TOKEN agent_ w request data st Hp Hne Hj Ht Hd.
  rewrite query_endpoint_run. unfold presents in Hp.
  destruct (bearer_token (Standalone.authorization request)) as [t|];
    [|discriminate].
  apply String.eqb_eq in Hp. subst t. rewrite Hne, String.eqb_refl.
  unfold view_outcome. rewrite Hj, Ht. cbv [negb].
  destruct data; try contradiction; try rewrite Hd; eexists; reflexivity.
Qed.

Lemma X23_witness :
  exists message,
    Standalone.query_endpoint "secret123" sample_agent (healthy "")
      (request_with (bearer "secret123") (PList [PStr "query"])) tt
    = (Raise (Exn TypeError message), tt, [GetJson]).
Proof.
  exact (X23_non_object_body_type_error
           "secret123" sample_agent (healthy "")
           (request_with (bearer "secret123") (PList [PStr "query"]))
           (PList [PStr "query"]) tt
           eq_refl eq_refl eq_refl eq_refl eq_refl).
Defined.

(** Property X24.  Whatever the request and whatever the agent does, a
    reply of the standalone endpoint has one of the status codes 200, 400,
    401 and 500: the standalone server never answers 403. *)
Theorem X24_standalone_status_codes :
  forall API_TOKEN agent_ w request st reply st' l,
    Standalone.query_endpoint API_TOKEN agent_ w request st = (Ok reply, st', l) ->
    standalone_status (Standalone.status reply) = true /\
    Standalone.status reply <> 403.
Proof.
  intros API_TOKEN agent_ w request st reply st' l H.
  assert (S : standalone_status (Standalone.status reply) = true).
  { rewrite query_endpoint_run in H.
    destruct (bearer_token (Standalone.authorization request)) as [t|];
      [|injection H as <- _ _; reflexivity].
    destruct (t =? "")%string; [injection H as <- _ _; reflexivity|].
    destruct (t =? API_TOKEN)%string; [|injection H as <- _ _; reflexivity].
    injection H as H _ _. revert H. unfold view_outcome.
    destruct (Standalone.get_json request) as [data|e]; [|discriminate].
    destruct (negb (truthy data)); [intros H; injection H as <-; reflexivity|].
    destruct data as [|b|z|s|l0|d]; try discriminate.
    - destruct (str_contains "query" s); [discriminate|].
      intros H; injection H as <-; reflexivity.
    - destruct (existsb (fun x => eq_str x "query") l0); [discriminate|].
      intros H; injection H as <-; reflexivity.
    - destruct (dict_get d "query") as [q|];
        [|intros H; injection H as <-; reflexivity].
      destruct (agent_query w agent_ q);
        intros H; injection H as <-; reflexivity. }
  split; [exact S|].
  intros F. rewrite F in S. discriminate S.
Qed.

Lemma X24_witness :
  standalone_status (Standalone.status invalid_token) = true /\
  Standalone.status invalid_token <> 403.
Proof.
  exact (X24_standalone_status_codes
           "secret123" sample_agent (healthy "")
           (request_with (Some "Bearer wrong") ada_body) tt _ _ _ eq_refl).
Defined.

(* ===================================================================== *)
(** ** The import of the standalone server *)
(* ===================================================================== *)

Lemma run_steps_completed construct steps l :
  Startup.run_steps construct steps = (None, l) ->
  l = steps /\ Forall (fun s => construct s = None) steps.
Proof.
  revert l. induction steps as [|s rest IH]; intros l H.
  - injection H as <-. split; [reflexivity | constructor].
  - simpl in H. destruct (construct s) eqn:Hs; [discriminate H|].
    destruct (Startup.run_steps construct rest) as [r l0].
    injection H as -> <-.
    destruct (IH l0 eq_refl) as [-> HF].
    split; [reflexivity | constructor; assumption].
Qed.

(** Property X25.  The import of the standalone server fails fast on its
    configuration: when [FUNCTION_API_TOKEN] is not set or is empty it
    raises [ValueError] before anything else, and when [CHROMA_PORT] is set
    to a text that [int] rejects it raises that [ValueError]; in both
    cases no client has been constructed. *)
Theorem X25_import_fails_fast :
  forall getenv int_of construct,
    (getenv "FUNCTION_API_TOKEN" = None \/
     getenv "FUNCTION_API_TOKEN" = Some "" ->
     Startup.main getenv int_of construct
     = (Startup.ImportFailed
          (Startup.ValueError "FUNCTION_API_TOKEN environment variable is not set"),
        [])) /\
    (forall token port message,
       getenv "FUNCTION_API_TOKEN" = Some token ->
       (token =? "")%string = false ->
       getenv "CHROMA_PORT" = Some port ->
       int_of port = inr message ->
       Startup.main getenv int_of construct
       = (Startup.ImportFailed (Startup.ValueError message), [])).
Proof.
  intros getenv int_of construct. split.
  - intros [H | H]; unfold Startup.main; rewrite H; reflexivity.
  - intros token port message Ht Hne Hp Hi.
    unfold Startup.main. rewrite Ht, Hne, Hp, Hi. reflexivity.
Qed.

Lemma X25_witness :
  Startup.main (env_of [("CHROMA_HOST", "db")]) int_stub (fun _ => None)
  = (Startup.ImportFailed
       (Startup.ValueError "FUNCTION_API_TOKEN environment variable is not set"),
     []) /\
  Startup.main (env_of [("FUNCTION_API_TOKEN", "secret123"); ("CHROMA_PORT", "80a")])
               int_stub (fun _ => None)
  = (Startup.ImportFailed
       (Startup.ValueError "invalid literal for int() with base 10: '80a'"),
     []).
Proof.
  split.
  - exact (proj1 (X25_import_fails_fast
                    (env_of [("CHROMA_HOST", "db")]) int_stub (fun _ => None))
                 (or_introl eq_refl)).
  - exact (proj2 (X25_import_fails_fast
                    (env_of [("FUNCTION_API_TOKEN", "secret123");
                             ("CHROMA_PORT", "80a")])
                    int_stub (fun _ => None))
                 "secret123" "80a" _ eq_refl eq_refl eq_refl eq_refl).
Defined.

(** Property X26.  A completed import of the standalone server has a
    secret that is not empty and an agent: [API_TOKEN] is the value of
    [FUNCTION_API_TOKEN], the nine constructors were called in the order
    of the code and all returned, the collection name and the model key
    are passed as the environment has them (unset included), and the agent
    is verbose exactly when [VERBOSE], lower-cased, is [true]. *)
Theorem X26_completed_import :
  forall getenv int_of construct token agent_ l,
    Startup.main getenv int_of construct = (Startup.Imported token agent_, l) ->
    getenv "FUNCTION_API_TOKEN" = Some token /\
    (token =? "")%string = false /\
    (exists port,
       l = [Startup.HttpClient (Startup.getenv_default getenv "CHROMA_HOST" "localhost") port;
            Startup.get_collection (getenv "CHROMA_COLLECTION_NAME");
            Startup.ChromaVectorStore;
            Startup.OpenAIEmbedding
              (Startup.getenv_default getenv "OPENAI_EMBEDDING_MODEL_NAME"
                                      "text-embedding-3-small")
              (getenv "OPENAI_API_KEY");
            Startup.OpenAI
              (Startup.getenv_default getenv "OPENAI_MODEL_NAME" "o3-mini")
              (getenv "OPENAI_API_KEY");
            Startup.from_vector_store;
            Startup.as_query_engine;
            Startup.QueryEngineTool_from_defaults;
            Startup.ReActAgent_from_tools (agent_verbose agent_)] /\
       (getenv "CHROMA_PORT" = None -> port = 8000)) /\
    Forall (fun s => construct s = None) l /\
    tool_name agent_ = "people" /\
    agent_verbose agent_
    = (Startup.lower (Startup.getenv_default getenv "VERBOSE" "false") =? "true")%string.
Proof.
  intros getenv int_of construct token agent_ l.
  unfold Startup.main.
  destruct (getenv "FUNCTION_API_TOKEN") as [tok|]; [|discriminate].
  destruct (tok =? "")%string eqn:Hne; [discriminate|].
  destruct (match getenv "CHROMA_PORT" with
            | Some p => int_of p
            | None => inl 8000
            end) as [port|message] eqn:Hp; [|discriminate].
  match goal with
  | |- context [Startup.run_steps construct ?steps] =>
      destruct (Startup.run_steps construct steps) as [[e|] l0] eqn:Hr
  end; [discriminate|].
  intros H. injection H as <- <- <-.
  destruct (run_steps_completed construct _ _ Hr) as [-> HF].
  split; [reflexivity|]. split; [exact Hne|]. split.
  - exists port. split; [reflexivity|].
    intros Hnone. rewrite Hnone in Hp. injection Hp as <-. reflexivity.
  - split; [exact HF|]. split; reflexivity.
Qed.

Lemma X26_witness :
  env_of [("FUNCTION_API_TOKEN", "secret123"); ("VERBOSE", "TRUE")]
         "FUNCTION_API_TOKEN" = Some "secret123" /\
  ("secret123" =? "")%string = false /\
  agent_verbose {| tool_name := "people";
                   tool_description := "descriptions for various types of people";
                   agent_verbose := true |}
  = (Startup.lower
       (Startup.getenv_default
          (env_of [("FUNCTION_API_TOKEN", "secret123"); ("VERBOSE", "TRUE")])
          "VERBOSE" "false") =? "true")%string.
Proof.
  pose proof (X26_completed_import
                (env_of [("FUNCTION_API_TOKEN", "secret123"); ("VERBOSE", "TRUE")])
                int_stub (fun _ => None) "secret123" _ _ eq_refl)
    as (H1 & H2 & _ & _ & _ & H6).
  split; [exact H1|]. split; [exact H2 | exact H6].
Defined.
